(** * woo-import-images: filling the Image column of a workbook

    A shallow embedding of the three scripts

    - [fill_images_in_xlsx_multi_bing.py]   (module [Bing]),
    - [fill_images_in_xlsx_multi_google.py] (module [Google]),
    - [fill_images_in_xlsx_pixibay.py]      (module [Pixabay]),

    and the properties of their query building, liveness probing, candidate
    selection, header handling and per-row loop.

    Conventions of the embedding.
    - Python [str] is modelled by [string]; the text is taken to be ASCII, so
      [str.split], [str.strip] and [str.lower] are the ASCII restrictions of
      the Python methods.
    - A cell of an openpyxl worksheet holds a typed [value].
    - The network ([requests.get], [requests.head]), [time.sleep], [print],
      cell writes and [wb.save] are effects of the monad [M]: a computation
      takes the state of the outside world, returns a result or a raised
      exception, the new world and the list of events it emitted. *)

From Stdlib Require Import ZArith Ascii String.
From stdpp Require Import base tactics option list list_numbers
  strings pretty gmap fin_maps.

Local Open Scope Z_scope.
Local Open Scope nat_scope.
Local Open Scope stdpp_scope.

(** ** Python strings *)

Module PyStr.

(** [str.isspace] on an ASCII character: TAB, LF, VT, FF, CR, the four
    separators FS, GS, RS, US and the space. *)
Definition is_space (c : ascii) : bool :=
  let n := nat_of_ascii c in
  ((9 <=? n) && (n <=? 13)) || ((28 <=? n) && (n <=? 32)).

(** [str.lower] on an ASCII character. *)
Definition lower_char (c : ascii) : ascii :=
  let n := nat_of_ascii c in
  if (65 <=? n) && (n <=? 90) then ascii_of_nat (n + 32) else c.

Fixpoint lower (s : string) : string :=
  match s with
  | EmptyString => EmptyString
  | String c s' => String (lower_char c) (lower s')
  end.

(** [text.split()]: the maximal runs of non-whitespace characters.  [cur] is
    the word being read. *)
Fixpoint split_acc (cur : string) (s : string) : list string :=
  match s with
  | EmptyString => if decide (cur = "") then [] else [cur]
  | String c s' =>
      if is_space c
      then (if decide (cur = "") then split_acc "" s'
            else cur :: split_acc "" s')
      else split_acc (cur +:+ String c "") s'
  end.

Definition split (s : string) : list string := split_acc "" s.

(** [sep.join(parts)]. *)
Fixpoint join (sep : string) (parts : list string) : string :=
  match parts with
  | [] => ""
  | [p] => p
  | p :: rest => p +:+ sep +:+ join sep rest
  end.

Fixpoint lstrip (s : string) : string :=
  match s with
  | EmptyString => EmptyString
  | String c s' => if is_space c then lstrip s' else s
  end.

Fixpoint rstrip (s : string) : string :=
  match s with
  | EmptyString => EmptyString
  | String c s' =>
      match rstrip s' with
      | EmptyString => if is_space c then EmptyString else String c EmptyString
      | r => String c r
      end
  end.

(** [s.strip()]. *)
Definition strip (s : string) : string := rstrip (lstrip s).

(** Truth value of a [str]: non-empty. *)
Definition truthy (s : string) : bool :=
  match s with EmptyString => false | _ => true end.

(** [s.startswith(p)] and [s.endswith(p)]. *)
Fixpoint startswith (s p : string) : bool :=
  match p, s with
  | EmptyString, _ => true
  | String a p', String b s' => if decide (a = b) then startswith s' p' else false
  | String _ _, EmptyString => false
  end.

Definition endswith (s p : string) : bool :=
  startswith (String.rev s) (String.rev p).

(** A word: what [split] produces, non-empty and free of whitespace. *)
Fixpoint no_space (s : string) : bool :=
  match s with
  | EmptyString => true
  | String c s' => negb (is_space c) && no_space s'
  end.

Definition is_word (s : string) : Prop := s <> "" /\ no_space s = true.

End PyStr.

(** ** Cell values and worksheets (openpyxl) *)

(** The value held by a cell.  [VOther] stands for the remaining cell types
    (float, datetime, ...): the scripts observe a value only through
    [isinstance(v, str)], its truth value and [str(v)]. *)
Inductive value : Type :=
| VNone
| VStr (s : string)
| VInt (z : Z)
| VBool (b : bool)
| VOther (truth : bool) (text : string).

#[global] Instance value_eq_dec : EqDecision value.
Proof. solve_decision. Defined.

(** [bool(v)]. *)
Definition py_bool (v : value) : bool :=
  match v with
  | VNone => false
  | VStr s => PyStr.truthy s
  | VInt z => negb (z =? 0)%Z
  | VBool b => b
  | VOther t _ => t
  end.

(** [str(v)]. *)
Definition py_str (v : value) : string :=
  match v with
  | VNone => "None"
  | VStr s => s
  | VInt z => pretty z
  | VBool true => "True"
  | VBool false => "False"
  | VOther _ s => s
  end.

(** The test [v and str(v).strip()] that the three scripts apply to the
    title cell, the image cell and the optional query cells. *)
Definition non_blank (v : value) : bool :=
  py_bool v && PyStr.truthy (PyStr.strip (py_str v)).

(** A worksheet: its title and the cells that exist, keyed by (row, column),
    both counted from 1. *)
Record worksheet : Type := Worksheet {
  ws_title : string;
  ws_cells : gmap (nat * nat) value
}.

(** [ws.max_row] and [ws.max_column]: 1 for a sheet without cells, else the
    largest row (column) index of an existing cell. *)
Definition max_row (ws : worksheet) : nat :=
  max_list (1 :: (fst <$> (map_to_list (ws_cells ws)).*1)).

Definition max_column (ws : worksheet) : nat :=
  max_list (1 :: (snd <$> (map_to_list (ws_cells ws)).*1)).

(** [ws.cell(row=r, column=c).value].  Reading a cell that does not exist
    creates it empty; the scripts only read inside the sheet's dimensions, so
    this does not move [max_row] or [max_column] and is left out. *)
Definition cell_value (ws : worksheet) (r c : nat) : value :=
  default VNone (ws_cells ws !! (r, c)).

(** The store behind [ws.cell(row=r, column=c, value=v)]. *)
Definition set_cell (ws : worksheet) (r c : nat) (v : value) : worksheet :=
  {| ws_title := ws_title ws; ws_cells := <[(r, c) := v]> (ws_cells ws) |}.

(** ** The outside world *)

Record response : Type := Response {
  status_code : Z;
  text : string
}.

(** What [requests] raises: connection errors, timeouts, malformed URLs. *)
Inductive request_error : Type := ConnectionError | Timeout | InvalidURL.

Inductive exn : Type :=
| RequestException (e : request_error)
| HTTPError (status : Z)
| JSONDecodeError
| RuntimeError (msg : string)
| EOFError.

Inductive result (A : Type) : Type :=
| Ok (a : A)
| Raised (e : exn).
Arguments Ok {A} a.
Arguments Raised {A} e.

(** The outcome of one HTTP request. *)
Inductive outcome : Type :=
| Responded (r : response)
| Failed (e : request_error).

(** The search requests of the three scripts, by their parameters (the URL
    encoding of the query is not modelled). *)
Inductive request : Type :=
| BingSearch (q : string) (first : nat)
| GoogleSearch (key cx q : string) (num : Z)
| PixabaySearch (key q : string).

(** One hit of the Pixabay API. *)
Record hit : Type := Hit {
  largeImageURL : option string;
  webformatURL : option string;
  previewURL : option string
}.

Inductive event : Type :=
| EvGet (req : request) (out : outcome)
| EvHead (url : string) (timeout : nat) (out : outcome)
| EvSleep (ms : nat)
| EvPrint (line : string)
| EvWrite (sheet : string) (row col : nat) (v : value)
| EvSave (wb : list worksheet).

(** The environment a script runs in: the network, whose answers may depend
    on and change the state of the [world], and the library functions that
    are used as they are: the two BeautifulSoup selections over a Bing page,
    the JSON decoders of the two APIs ([None] when [r.json()] or the access
    to the decoded value raises) and the check [urllib.parse] applies to a
    bracketed host. *)
Class Environment : Type := {
  world : Type;
  requests_get : request -> world -> outcome * world;
  requests_head : string -> nat -> world -> outcome * world;
  iusc_murls : string -> list string;
  img_srcs : string -> list string;
  google_items : string -> option (list (option string));
  pixabay_hits : string -> option (list hit);
  bracketed_host_ok : string -> bool
}.

(** ** The monad of effects *)

Section Effects.
Context {env : Environment}.

Definition M (A : Type) : Type := world -> result A * world * list event.

Definition ret {A} (a : A) : M A := fun w => (Ok a, w, []).

Definition raise {A} (e : exn) : M A := fun w => (Raised e, w, []).

Definition bind {A B} (m : M A) (f : A -> M B) : M B :=
  fun w =>
    match m w with
    | (Ok a, w1, e1) =>
        match f a w1 with
        | (r, w2, e2) => (r, w2, e1 ++ e2)
        end
    | (Raised x, w1, e1) => (Raised x, w1, e1)
    end.

(** [try: m  except Exception: h]. *)
Definition try_except {A} (m : M A) (h : exn -> M A) : M A :=
  fun w =>
    match m w with
    | (Ok a, w1, e1) => (Ok a, w1, e1)
    | (Raised x, w1, e1) =>
        match h x w1 with
        | (r, w2, e2) => (r, w2, e1 ++ e2)
        end
    end.

Definition emit (e : event) : M unit := fun w => (Ok tt, w, [e]).

(** [requests.get(...)]: a response, or an exception of [requests]. *)
Definition http_get (req : request) : M response :=
  fun w =>
    match requests_get req w with
    | (Responded r, w') => (Ok r, w', [EvGet req (Responded r)])
    | (Failed e, w') => (Raised (RequestException e), w', [EvGet req (Failed e)])
    end.

(** [requests.head(url, timeout=timeout, allow_redirects=True)]. *)
Definition http_head (url : string) (timeout : nat) : M response :=
  fun w =>
    match requests_head url timeout w with
    | (Responded r, w') => (Ok r, w', [EvHead url timeout (Responded r)])
    | (Failed e, w') =>
        (Raised (RequestException e), w', [EvHead url timeout (Failed e)])
    end.

(** [r.raise_for_status()]: an [HTTPError] for a 4xx or 5xx status. *)
Definition raise_for_status (r : response) : M unit :=
  if ((400 <=? status_code r) && (status_code r <? 600))%Z
  then raise (HTTPError (status_code r))
  else ret tt.

(** [time.sleep], in milliseconds. *)
Definition sleep (ms : nat) : M unit := emit (EvSleep ms).

Definition print (line : string) : M unit := emit (EvPrint line).

(** [ws.cell(row=r, column=c, value=v)]. *)
Definition write_cell (ws : worksheet) (r c : nat) (v : value) : M worksheet :=
  bind (emit (EvWrite (ws_title ws) r c v)) (fun _ => ret (set_cell ws r c v)).

End Effects.

Notation "'let*' x ':=' m 'in' k" := (bind m (fun x => k))
  (at level 10, x pattern, m at level 100, k at level 200) : stdpp_scope.

(** The three components of a run. *)
Definition res_of {W A} (x : result A * W * list event) : result A := x.1.1.
Definition world_of {W A} (x : result A * W * list event) : W := x.1.2.
Definition events_of {W A} (x : result A * W * list event) : list event := x.2.

(** ** Code shared by the three scripts *)

(** The loop
<<
    seen = set(); out = []
    for w in items:
        k = key(w)
        if k in seen: continue
        seen.add(k); out.append(w)
>>
    of [dedupe_words] (key [str.lower]) and of the end of
    [parse_bing_image_results] (key the URL itself). *)
Fixpoint first_seen (key : string -> string) (items : list string)
    (seen : gset string) (out : list string) : list string :=
  match items with
  | [] => out
  | w :: rest =>
      let k := key w in
      if decide (k ∈ seen) then first_seen key rest seen out
      else first_seen key rest ({[k]} ∪ seen) (out ++ [w])
  end.

(** [dedupe_words] of the Bing and Google scripts. *)
Definition dedupe_words (text : string) : string :=
  PyStr.join " " (first_seen PyStr.lower (PyStr.split text) ∅ []).

Definition TITLE_HEADER : string := "Title".
Definition IMAGE_HEADER : string := "Image".
Definition OPTIONAL_QUERY_COLUMNS : list string := ["Brand"; "Region"].
Definition INPUT_XLSX : string := "products_for_auto_images_ALL_SHEETS.xlsx".

(** The loop over [OPTIONAL_QUERY_COLUMNS] of [build_query]: the trimmed text
    of every optional cell whose column exists and whose value passes
    [val and str(val).strip()]. *)
Definition optional_bits (ws : worksheet) (row_idx : nat)
    (col_index_by_name : gmap string nat) : list string :=
  omap (fun col_name =>
          match col_index_by_name !! col_name with
          | Some idx =>
              if negb (idx =? 0) then
                let val := cell_value ws row_idx idx in
                if non_blank val then Some (PyStr.strip (py_str val)) else None
              else None
          | None => None
          end) OPTIONAL_QUERY_COLUMNS.

Section Shared.
Context {env : Environment}.

(** [head_ok], the same in the three scripts. *)
Definition head_ok (url : string) (timeout : nat) : M bool :=
  try_except
    (let* r := http_head url timeout in
     ret ((200 <=? status_code r) && (status_code r <? 400))%Z)
    (fun _ => ret false).

(** The first loop of [ensure_headers]: the headers of row 1. *)
Definition read_headers (ws : worksheet) (max_col : nat) : gmap string nat :=
  foldl (fun existing col =>
           match cell_value ws 1 col with
           | VStr s =>
               if PyStr.truthy (PyStr.strip s)
               then <[PyStr.strip s := col]> existing
               else existing
           | _ => existing
           end) ∅ (seq 1 max_col).

(** The second loop of [ensure_headers]: the missing headers, to the right. *)
Fixpoint add_missing (headers_needed : list string) (ws : worksheet)
    (max_col : nat) (existing : gmap string nat)
    : M (worksheet * gmap string nat) :=
  match headers_needed with
  | [] => ret (ws, existing)
  | h :: rest =>
      match existing !! h with
      | Some _ => add_missing rest ws max_col existing
      | None =>
          let* ws' := write_cell ws 1 (max_col + 1) (VStr h) in
          add_missing rest ws' (max_col + 1) (<[h := max_col + 1]> existing)
      end
  end.

(** [ensure_headers], the same in the three scripts. *)
Definition ensure_headers (ws : worksheet) (headers_needed : list string)
    : M (worksheet * gmap string nat) :=
  let max_col := if max_column ws =? 0 then 1 else max_column ws in
  add_missing headers_needed ws max_col (read_headers ws max_col).

End Shared.

(** ** [urllib.parse.urlparse(url).netloc] (CPython 3.12, ASCII URLs) *)

Module UrlParse.

Definition is_alpha (c : ascii) : bool :=
  let n := nat_of_ascii c in
  ((65 <=? n) && (n <=? 90)) || ((97 <=? n) && (n <=? 122)).

Definition is_digit (c : ascii) : bool :=
  let n := nat_of_ascii c in (48 <=? n) && (n <=? 57).

(** [scheme_chars]: letters, digits, "+", "-" and ".". *)
Definition is_scheme_char (c : ascii) : bool :=
  is_alpha c || is_digit c
  || bool_decide (c = "+"%char) || bool_decide (c = "-"%char)
  || bool_decide (c = "."%char).

Fixpoint all_chars (p : ascii -> bool) (s : string) : bool :=
  match s with
  | EmptyString => true
  | String c s' => p c && all_chars p s'
  end.

Fixpoint keep_chars (p : ascii -> bool) (s : string) : string :=
  match s with
  | EmptyString => EmptyString
  | String c s' => if p c then String c (keep_chars p s') else keep_chars p s'
  end.

(** The text before the first character satisfying [p], and the text after
    that character when there is one. *)
Fixpoint cut_at (p : ascii -> bool) (s : string) : string * option string :=
  match s with
  | EmptyString => (EmptyString, None)
  | String c s' =>
      if p c then (EmptyString, Some s')
      else match cut_at p s' with (pre, post) => (String c pre, post) end
  end.

(** [url.lstrip(_WHATWG_C0_CONTROL_OR_SPACE)]. *)
Fixpoint lstrip_c0 (s : string) : string :=
  match s with
  | EmptyString => EmptyString
  | String c s' => if nat_of_ascii c <=? 32 then lstrip_c0 s' else s
  end.

(** Removal of the characters of [_UNSAFE_URL_BYTES_TO_REMOVE]. *)
Definition remove_unsafe (s : string) : string :=
  keep_chars (fun c => negb (bool_decide (nat_of_ascii c = 9)
                             || bool_decide (nat_of_ascii c = 10)
                             || bool_decide (nat_of_ascii c = 13))) s.

(** The scheme, when the text before the first ":" is one, is cut off. *)
Definition strip_scheme (url : string) : string :=
  match cut_at (fun c => bool_decide (c = ":"%char)) url with
  | (String c0 pre, Some rest) =>
      if is_alpha c0 && all_chars is_scheme_char (String c0 pre)
      then rest else url
  | _ => url
  end.

Definition is_delim (c : ascii) : bool :=
  bool_decide (c = "/"%char) || bool_decide (c = "?"%char)
  || bool_decide (c = "#"%char).

Definition contains (c : ascii) (s : string) : bool :=
  negb (all_chars (fun d => negb (bool_decide (d = c))) s).

Section Netloc.
Context {env : Environment}.

(** [urlparse(url).netloc]; [None] when [urlsplit] raises [ValueError]. *)
Definition netloc (url : string) : option string :=
  let url := strip_scheme (remove_unsafe (lstrip_c0 url)) in
  match url with
  | String "/" (String "/" rest) =>
      let nl := (cut_at is_delim rest).1 in
      let opened := contains "[" nl in
      let closed := contains "]" nl in
      if xorb opened closed then None
      else if opened && closed then
        let inner :=
          match cut_at (fun c => bool_decide (c = "["%char)) nl with
          | (_, Some after) =>
              (cut_at (fun c => bool_decide (c = "]"%char)) after).1
          | (_, None) => EmptyString
          end in
        if bracketed_host_ok inner then Some nl else None
      else Some nl
  | _ => Some EmptyString
  end.

End Netloc.
End UrlParse.

(** ** The loop over sheets and rows, common to the three [main] functions

    The three scripts differ in how the query is built ([build_query]), in
    how a query becomes a URL ([find_image]) and in the pause between rows
    ([DELAY], in milliseconds).  The lines printed when a sheet starts and
    for each row are not modelled; the report of each sheet and the final
    report are, without the newline that precedes "All done.". *)

Section MainLoop.
Context {env : Environment}.
Variable build_query : string -> worksheet -> nat -> gmap string nat -> string.
Variable find_image : string -> M (option string).
Variable DELAY : nat.

(** [for row in range(2, rows + 1): ...]. *)
Fixpoint rows_loop (rows : list nat) (title_col image_col : nat)
    (col_index_by_name : gmap string nat) (ws : worksheet)
    (filled skipped : nat) : M (worksheet * nat * nat) :=
  match rows with
  | [] => ret (ws, filled, skipped)
  | row :: rest =>
      let title_val := cell_value ws row title_col in
      if negb (non_blank title_val) then
        rows_loop rest title_col image_col col_index_by_name ws
          filled (skipped + 1)
      else
        let existing := cell_value ws row image_col in
        if non_blank existing then
          rows_loop rest title_col image_col col_index_by_name ws
            filled skipped
        else
          let query := build_query (py_str title_val) ws row col_index_by_name in
          let* url := find_image query in
          let* (ws', filled') :=
            match url with
            | Some u =>
                if PyStr.truthy u then
                  let* ws' := write_cell ws row image_col (VStr u) in
                  ret (ws', filled + 1)
                else ret (ws, filled)
            | None => ret (ws, filled)
            end in
          let* _ := sleep DELAY in
          rows_loop rest title_col image_col col_index_by_name ws'
            filled' skipped
  end.

(** The body of [for ws in wb.worksheets]. *)
Definition process_sheet (ws : worksheet) : M (worksheet * nat * nat) :=
  let* (ws1, col_map) := ensure_headers ws [TITLE_HEADER; IMAGE_HEADER] in
  let title_col := col_map !!! TITLE_HEADER in
  let image_col := col_map !!! IMAGE_HEADER in
  let rows := max_row ws1 in
  let* (ws2, filled, skipped) :=
    rows_loop (seq 2 (rows - 1)) title_col image_col col_map ws1 0 0 in
  let* _ := print ("Sheet '" +:+ ws_title ws2 +:+ "': filled " +:+ pretty filled
                   +:+ ", skipped " +:+ pretty skipped) in
  ret (ws2, filled, skipped).

Fixpoint sheets_loop (sheets : list worksheet) (total_filled total_skipped : nat)
    : M (list worksheet * nat * nat) :=
  match sheets with
  | [] => ret ([], total_filled, total_skipped)
  | ws :: rest =>
      let* (ws', filled, skipped) := process_sheet ws in
      let* (rest', tf, ts) :=
        sheets_loop rest (total_filled + filled) (total_skipped + skipped) in
      ret (ws' :: rest', tf, ts)
  end.

(** From [wb = load_workbook(INPUT_XLSX)] to the end of [main]. *)
Definition fill_workbook (OUTPUT_XLSX : string) (wb : list worksheet) : M unit :=
  let* (wb', total_filled, total_skipped) := sheets_loop wb 0 0 in
  let* _ := emit (EvSave wb') in
  let* _ := print "All done." in
  let* _ := print ("Total filled:  " +:+ pretty total_filled) in
  let* _ := print ("Total skipped: " +:+ pretty total_skipped) in
  print ("Saved as:      " +:+ OUTPUT_XLSX).

End MainLoop.

(** The line printed when [os.path.exists(INPUT_XLSX)] is false. *)
Definition not_found_line : string :=
  "[!] Input workbook not found: " +:+ INPUT_XLSX.


(** The first live URL of a list: the loop of [main] in the Google script,
<<
    chosen = None
    for url in candidates:
        if head_ok(url, timeout=10):
            chosen = url
            break
>>  *)
Section FirstLive.
Context {env : Environment}.

Fixpoint first_live (candidates : list string) : M (option string) :=
  match candidates with
  | [] => ret None
  | url :: rest =>
      let* ok := head_ok url 10 in
      if ok then ret (Some url) else first_live rest
  end.

End FirstLive.

(** [a or b] on values that are [None] or a [str]. *)
Definition py_or (a b : option string) : option string :=
  match a with
  | Some s => if PyStr.truthy s then a else b
  | None => b
  end.

(** ** fill_images_in_xlsx_multi_bing.py *)

Module Bing.
Section Script.
Context {env : Environment}.
Variable ALLOWED_DOMAINS : list string.

Definition OUTPUT_XLSX : string := "products_with_images_ALL_SHEETS_BING.xlsx".
Definition DELAY_BETWEEN_QUERIES : nat := 600.
Definition BING_PAGES_FIRST_PARAMS : list nat := [1; 11].

Definition domain_is_allowed (url : string) : bool :=
  match ALLOWED_DOMAINS with
  | [] => true
  | _ =>
      match UrlParse.netloc url with
      | Some nl =>
          let host := PyStr.lower nl in
          existsb (fun d => PyStr.endswith host (PyStr.lower d)) ALLOWED_DOMAINS
      | None => false
      end
  end.

Definition build_query (base_title : string) (ws : worksheet) (row_idx : nat)
    (col_index_by_name : gmap string nat) : string :=
  let bits := PyStr.strip base_title :: optional_bits ws row_idx col_index_by_name in
  dedupe_words (PyStr.join " " bits).

(** The candidates of a page: the [murl] of the [a.iusc] anchors, then the
    plausible [img] sources, without repetition and in page order. *)
Definition parse_bing_image_results (html : string) : list string :=
  first_seen id (iusc_murls html ++ img_srcs html) ∅ [].

(** The inner loop of [bing_first_live_image]. *)
Fixpoint first_allowed_live (candidates : list string) : M (option string) :=
  match candidates with
  | [] => ret None
  | candidate :: rest =>
      if negb (domain_is_allowed candidate) then first_allowed_live rest
      else
        let* ok := head_ok candidate 10 in
        if ok then ret (Some candidate) else first_allowed_live rest
  end.

(** The loop [for first in BING_PAGES_FIRST_PARAMS]. *)
Fixpoint bing_pages (query : string) (pages : list nat) : M (option string) :=
  match pages with
  | [] => ret None
  | first :: rest =>
      let* got :=
        try_except
          (let* r := http_get (BingSearch query first) in
           let* _ := raise_for_status r in
           ret (Some r))
          (fun _ => ret None) in
      match got with
      | None => bing_pages query rest
      | Some r =>
          let* found := first_allowed_live (parse_bing_image_results (text r)) in
          match found with
          | Some candidate => ret (Some candidate)
          | None => let* _ := sleep 300 in bing_pages query rest
          end
      end
  end.

Definition bing_first_live_image (query : string) : M (option string) :=
  bing_pages query BING_PAGES_FIRST_PARAMS.

(** [input] is [None] when [INPUT_XLSX] does not exist, else the workbook
    that [load_workbook] returns. *)
Definition main (input : option (list worksheet)) : M unit :=
  match input with
  | None => print not_found_line
  | Some wb =>
      fill_workbook build_query bing_first_live_image DELAY_BETWEEN_QUERIES
        OUTPUT_XLSX wb
  end.

End Script.
End Bing.

(** ** fill_images_in_xlsx_multi_google.py *)

Module Google.

(** What [input(...)] gives: a line, Ctrl-C, or the end of the input. *)
Inductive prompt : Type :=
| Typed (line : string)
| KeyboardInterrupt
| EndOfInput.

(** Where the credentials may come from: the options [--key] and [--cx], the
    environment, the first lines of [google.key] and [google.cx] ([None] when
    the file does not exist, else its lines), the answers to the prompts. *)
Record credentials : Type := Credentials {
  arg_key : option string;
  arg_cx : option string;
  env_key : option string;
  env_cx : option string;
  file_key : option (list string);
  file_cx : option (list string);
  typed_key : prompt;
  typed_cx : prompt
}.

Definition missing_credentials : string :=
  "Missing credentials. Provide --key and --cx, or set env vars, or files google.key/google.cx.".

(** [(args.x or os.getenv(NAME, "")).strip()]. *)
Definition from_args_or_env (arg envv : option string) : string :=
  PyStr.strip (default "" (py_or arg (Some (default "" envv)))).

(** [if not x: ... first line of the file ...]. *)
Definition from_file (x : string) (file : option (list string)) : string :=
  if PyStr.truthy x then x
  else match file with
       | Some (line :: _) => PyStr.strip line
       | _ => x
       end.

(** [if not x: try: x = input(...).strip() except KeyboardInterrupt: pass]. *)
Definition from_prompt (x : string) (p : prompt) : result string :=
  if PyStr.truthy x then Ok x
  else match p with
       | Typed line => Ok (PyStr.strip line)
       | KeyboardInterrupt => Ok x
       | EndOfInput => Raised EOFError
       end.

Definition resolve_google_key_and_cx (c : credentials) : result (string * string) :=
  let key := from_args_or_env (arg_key c) (env_key c) in
  let cx := from_args_or_env (arg_cx c) (env_cx c) in
  let key := from_file key (file_key c) in
  let cx := from_file cx (file_cx c) in
  match from_prompt key (typed_key c) with
  | Raised e => Raised e
  | Ok key =>
      match from_prompt cx (typed_cx c) with
      | Raised e => Raised e
      | Ok cx =>
          if negb (PyStr.truthy key) || negb (PyStr.truthy cx)
          then Raised (RuntimeError missing_credentials)
          else Ok (key, cx)
      end
  end.

Section Script.
Context {env : Environment}.

Definition OUTPUT_XLSX : string := "products_with_images_ALL_SHEETS_GOOGLE.xlsx".
Definition DELAY_BETWEEN_QUERIES : nat := 450.
Definition RESULTS_PER_QUERY : Z := 10.

Definition google_image_search (key cx query : string) (num : Z)
    : M (list string) :=
  let params := GoogleSearch key cx query (Z.min (Z.max 1 num) 10) in
  let* got :=
    try_except
      (let* r := http_get params in
       let* r :=
         (if (status_code r =? 429)%Z
          then let* _ := sleep 2000 in http_get params
          else ret r) in
       let* _ := raise_for_status r in
       ret (Some r))
      (fun _ => ret None) in
  match got with
  | None => ret []
  | Some r =>
      match google_items (text r) with
      | None => raise JSONDecodeError
      | Some items =>
          ret (omap (fun link => py_or link None) items)
      end
  end.

Definition build_query (base_title : string) (ws : worksheet) (row_idx : nat)
    (col_index_by_name : gmap string nat) : string :=
  let bits := PyStr.strip base_title :: optional_bits ws row_idx col_index_by_name in
  dedupe_words (PyStr.join " " bits).

(** Steps 4 and 5 of the row loop of [main]. *)
Definition find_image (key cx query : string) : M (option string) :=
  let* candidates := google_image_search key cx query RESULTS_PER_QUERY in
  first_live candidates.

Definition main (input : option (list worksheet)) (c : credentials) : M unit :=
  match input with
  | None => print not_found_line
  | Some wb =>
      match resolve_google_key_and_cx c with
      | Raised e => raise e
      | Ok (key, cx) =>
          fill_workbook build_query (find_image key cx) DELAY_BETWEEN_QUERIES
            OUTPUT_XLSX wb
      end
  end.

End Script.
End Google.

(** ** fill_images_in_xlsx_pixibay.py *)

Module Pixabay.
Section Script.
Context {env : Environment}.

(** [API_KEY = os.getenv("PIXABAY_API_KEY", "").strip()]. *)
Variable API_KEY : string.

Definition OUTPUT_XLSX : string := "products_with_images_ALL_SHEETS_PIXABAY.xlsx".
Definition DELAY_BETWEEN_QUERIES : nat := 600.

Definition key_not_set : string :=
  "PIXABAY_API_KEY is not set. Export it in your shell: export PIXABAY_API_KEY=YOUR_KEY_HERE".

Definition build_query (base_title : string) (ws : worksheet) (row_idx : nat)
    (col_index_by_name : gmap string nat) : string :=
  let parts := PyStr.strip base_title :: optional_bits ws row_idx col_index_by_name in
  PyStr.join " " parts.

(** The loop [for h in hits]. *)
Fixpoint first_live_hit (hits : list hit) : M (option string) :=
  match hits with
  | [] => ret None
  | h :: rest =>
      match py_or (largeImageURL h) (py_or (webformatURL h) (previewURL h)) with
      | Some candidate =>
          if PyStr.truthy candidate then
            let* ok := head_ok candidate 10 in
            if ok then ret (Some candidate) else first_live_hit rest
          else first_live_hit rest
      | None => first_live_hit rest
      end
  end.

Definition pixabay_first_image_url (query : string) : M (option string) :=
  if negb (PyStr.truthy API_KEY) then raise (RuntimeError key_not_set)
  else
    let* got :=
      try_except
        (let* r := http_get (PixabaySearch API_KEY query) in
         let* _ := raise_for_status r in
         ret (Some r))
        (fun _ => ret None) in
    match got with
    | None => ret None
    | Some r =>
        match pixabay_hits (text r) with
        | None => raise JSONDecodeError
        | Some [] => ret None
        | Some hits => first_live_hit hits
        end
    end.

Definition main (input : option (list worksheet)) : M unit :=
  match input with
  | None => print not_found_line
  | Some wb =>
      fill_workbook build_query pixabay_first_image_url DELAY_BETWEEN_QUERIES
        OUTPUT_XLSX wb
  end.

End Script.
End Pixabay.

(** ** Statements of the specification used as references *)

(** "Removes a token if its case-insensitive form already occurred earlier in
    the concatenation": [earlier] holds the tokens read so far. *)
Fixpoint spec_dedupe (earlier : list string) (tokens : list string) : list string :=
  match tokens with
  | [] => []
  | t :: rest =>
      if decide (PyStr.lower t ∈ PyStr.lower <$> earlier)
      then spec_dedupe (earlier ++ [t]) rest
      else t :: spec_dedupe (earlier ++ [t]) rest
  end.

(** ** Reading the events of a run *)

(** A response counts as live when its status is 2xx or 3xx. *)
Definition is_live (out : outcome) : bool :=
  match out with
  | Responded r => ((200 <=? status_code r) && (status_code r <=? 399))%Z
  | Failed _ => false
  end.

(** The URLs probed, in order, each with the verdict of its probe. *)
Definition probes (evs : list event) : list (string * bool) :=
  omap (fun e => match e with
                 | EvHead url _ out => Some (url, is_live out)
                 | _ => None
                 end) evs.

(** The search requests sent, in order. *)
Definition gets (evs : list event) : list request :=
  omap (fun e => match e with EvGet req _ => Some req | _ => None end) evs.

(** The pauses taken, in order. *)
Definition sleeps (evs : list event) : list nat :=
  omap (fun e => match e with EvSleep ms => Some ms | _ => None end) evs.

(** The cells written, in order: sheet title, row, column, value. *)
Definition writes (evs : list event) : list (string * nat * nat * value) :=
  omap (fun e => match e with
                 | EvWrite t r c v => Some (t, r, c, v)
                 | _ => None
                 end) evs.

(** A response that [raise_for_status] lets through. *)
Definition passes (r : response) : bool :=
  negb ((400 <=? status_code r) && (status_code r <? 600))%Z.

(** The candidates of the Bing pages that were fetched, in order. *)
Definition bing_candidates `{env : Environment} (evs : list event) : list string :=
  List.flat_map
    (fun e => match e with
              | EvGet (BingSearch _ _) (Responded r) =>
                  if passes r then Bing.parse_bing_image_results (text r) else []
              | _ => []
              end) evs.

(** A list of URLs, each marked as probed and found dead. *)
Definition dead (urls : list string) : list (string * bool) :=
  (fun u => (u, false)) <$> urls.

(** What a run of probes that only meets dead candidates looks like, and
    what a run that ends on a live one looks like. *)
Definition only_heads `{env : Environment} (evs : list event) : Prop :=
  gets evs = [] ∧ sleeps evs = [] ∧ writes evs = [] ∧ bing_candidates evs = [].

(** The outcome of a selection loop over [candidates]: the result [found],
    and the probes it made. *)
Definition selection `{env : Environment} (candidates : list string) (found : option string)
    (evs : list event) : Prop :=
  only_heads evs ∧
  match found with
  | Some u =>
      ∃ pre post,
        candidates = pre ++ u :: post
        ∧ probes evs = dead pre ++ [(u, true)]
        ∧ ∃ evs0 o, evs = evs0 ++ [EvHead u 10 o]
  | None => probes evs = dead candidates
  end.

(** The outcome of [bing_first_live_image]: the pages are requested in
    order; the admissible candidates of the pages fetched are probed in
    order; the first live one is the result and the last event. *)
Definition bing_resolution `{env : Environment} (allowed : list string)
    (query : string) (found : option string) (evs : list event) : Prop :=
  let admissible :=
    List.filter (Bing.domain_is_allowed allowed) (bing_candidates evs) in
  (∃ k, gets evs = BingSearch query <$> take k Bing.BING_PAGES_FIRST_PARAMS
        ∧ (found = None -> k = length Bing.BING_PAGES_FIRST_PARAMS))
  ∧ match found with
    | Some u =>
        ∃ pre post evs0 o,
          admissible = pre ++ u :: post
          ∧ probes evs = dead pre ++ [(u, true)]
          ∧ evs = evs0 ++ [EvHead u 10 o]
    | None => probes evs = dead admissible
    end.

(** ** Sheets and environments used in examples *)

(** A network where every search answers with the candidates "deadurl1",
    "liveurl2", "liveurl3", of which the first is dead; a blank URL is
    refused as malformed. *)
Definition shop_env : Environment := {|
  world := unit;
  requests_get := fun _ w => (Responded (Response 200 "page"), w);
  requests_head := fun url _ w =>
    (if PyStr.truthy (PyStr.strip url)
     then Responded (Response (if decide (url = "deadurl1") then 404 else 200) "")
     else Failed InvalidURL, w);
  iusc_murls := fun _ => ["deadurl1"; "liveurl2"; "liveurl3"];
  img_srcs := fun _ => [];
  google_items := fun _ => Some [Some "deadurl1"; Some "liveurl2"; Some "liveurl3"];
  pixabay_hits := fun _ =>
    Some [Hit (Some "deadurl1") None None; Hit None (Some "liveurl2") None];
  bracketed_host_ok := fun _ => true
|}.


Definition blank_sheet : worksheet := Worksheet "Sheet1" ∅.

(** The links of a response of the Google API, as [google_image_search]
    extracts them. *)
Definition google_links `{env : Environment} (r : response) : result (list string) :=
  match google_items (text r) with
  | None => Raised JSONDecodeError
  | Some items => Ok (omap (fun link => py_or link None) items)
  end.

(** A network that answers every search with status 429. *)
Definition throttled_env : Environment := {|
  world := unit;
  requests_get := fun _ w => (Responded (Response 429 "Too Many Requests"), w);
  requests_head := fun _ _ w => (Failed Timeout, w);
  iusc_murls := fun _ => [];
  img_srcs := fun _ => [];
  google_items := fun _ => None;
  pixabay_hits := fun _ => None;
  bracketed_host_ok := fun _ => true
|}.

(** ** What [ensure_headers] computes *)

(** One step of the first loop of [ensure_headers]. *)
Definition header_step (ws : worksheet) (existing : gmap string nat) (col : nat)
    : gmap string nat :=
  match cell_value ws 1 col with
  | VStr s =>
      if PyStr.truthy (PyStr.strip s)
      then <[PyStr.strip s := col]> existing
      else existing
  | _ => existing
  end.

(** The headers found in row 1. *)
Definition found_headers (ws : worksheet) : gmap string nat :=
  read_headers ws (max_column ws).

(** The header cells [ensure_headers ws [TITLE_HEADER; IMAGE_HEADER]] adds:
    column and name, in the order of writing. *)
Definition header_cells (ws : worksheet) : list (nat * string) :=
  match found_headers ws !! TITLE_HEADER, found_headers ws !! IMAGE_HEADER with
  | Some _, Some _ => []
  | Some _, None => [(max_column ws + 1, IMAGE_HEADER)]
  | None, Some _ => [(max_column ws + 1, TITLE_HEADER)]
  | None, None =>
      [(max_column ws + 1, TITLE_HEADER); (max_column ws + 1 + 1, IMAGE_HEADER)]
  end.

(** The sheet it leaves, and the map it returns. *)
Definition with_headers (ws : worksheet) : worksheet :=
  foldl (fun s ch => set_cell s 1 ch.1 (VStr ch.2)) ws (header_cells ws).

Definition headers_map (ws : worksheet) : gmap string nat :=
  foldl (fun m ch => <[ch.2 := ch.1]> m) (found_headers ws) (header_cells ws).

(** The columns of the title and of the image. *)
Definition title_column (ws : worksheet) : nat := headers_map ws !!! TITLE_HEADER.
Definition image_column (ws : worksheet) : nat := headers_map ws !!! IMAGE_HEADER.

(** What the test [if url:] lets through. *)
Definition chosen (url : option string) : option string :=
  match url with
  | Some u => if PyStr.truthy u then Some u else None
  | None => None
  end.

(** The events of [ensure_headers], the rows visited in a sheet and the
    line reported for it. *)
Definition header_events (ws : worksheet) : list event :=
  (fun ch => EvWrite (ws_title ws) 1 ch.1 (VStr ch.2)) <$> header_cells ws.

Definition sheet_rows (ws : worksheet) : list nat :=
  seq 2 (max_row (with_headers ws) - 1).

Definition sheet_report (ws : worksheet) (filled skipped : nat) : string :=
  "Sheet '" +:+ ws_title ws +:+ "': filled " +:+ pretty filled
  +:+ ", skipped " +:+ pretty skipped.

(** ** The three scripts, side by side *)

Inductive script : Type :=
| BingScript (ALLOWED_DOMAINS : list string)
| GoogleScript (key cx : string)
| PixabayScript (API_KEY : string).

Definition script_query (s : script)
    : string -> worksheet -> nat -> gmap string nat -> string :=
  match s with
  | BingScript _ => Bing.build_query
  | GoogleScript _ _ => Google.build_query
  | PixabayScript _ => Pixabay.build_query
  end.

Definition script_find `{env : Environment} (s : script)
    : string -> M (option string) :=
  match s with
  | BingScript allowed => Bing.bing_first_live_image allowed
  | GoogleScript key cx => Google.find_image key cx
  | PixabayScript api_key => Pixabay.pixabay_first_image_url api_key
  end.

Definition script_delay (s : script) : nat :=
  match s with
  | BingScript _ => Bing.DELAY_BETWEEN_QUERIES
  | GoogleScript _ _ => Google.DELAY_BETWEEN_QUERIES
  | PixabayScript _ => Pixabay.DELAY_BETWEEN_QUERIES
  end.

(** The pass of a script over one sheet, and over a workbook. *)
Definition script_sheet `{env : Environment} (s : script) (ws : worksheet)
    : M (worksheet * nat * nat) :=
  process_sheet (script_query s) (script_find s) (script_delay s) ws.

Definition script_pass `{env : Environment} (s : script) (wb : list worksheet)
    : M (list worksheet * nat * nat) :=
  sheets_loop (script_query s) (script_find s) (script_delay s) wb 0 0.

(** The candidate of a Pixabay hit: the first of its three URLs that is not
    empty. *)
Definition hit_candidate (h : hit) : option string :=
  chosen (py_or (largeImageURL h) (py_or (webformatURL h) (previewURL h))).

(** A network whose answers do not depend on what was asked before:
    "provider responses unchanged". *)
Definition stateless `{env : Environment} : Prop :=
  (∀ req w w', (requests_get req w).1 = (requests_get req w').1)
  ∧ (∀ url t w w', (requests_head url t w).1 = (requests_head url t w').1).

(** A blank URL is malformed: its probe is never live. *)
Definition blank_urls_dead `{env : Environment} : Prop :=
  ∀ url t w,
    PyStr.truthy (PyStr.strip url) = false ->
    is_live (requests_head url t w).1 = false.





(** A sheet whose row 2 has its image already and whose row 3 has none. *)
Definition filled_sheet : worksheet :=
  Worksheet "Cards"
    (list_to_map [((1, 1), VStr "Title"); ((1, 2), VStr "Image");
                  ((2, 1), VStr "Visa Gift Card");
                  ((2, 2), VStr "https://img.example.com/visa.png");
                  ((3, 1), VStr "Amazon Voucher")]).

(** The workbooks saved, in order. *)
Definition saves (evs : list event) : list (list worksheet) :=
  omap (fun e => match e with EvSave wb => Some wb | _ => None end) evs.

(** The lines [main] prints after saving. *)
Definition final_report (out : string) (total_filled total_skipped : nat)
    : list event :=
  [EvPrint "All done.";
   EvPrint ("Total filled:  " +:+ pretty total_filled);
   EvPrint ("Total skipped: " +:+ pretty total_skipped);
   EvPrint ("Saved as:      " +:+ out)].

(** [filled_sheet] after a pass that found "liveurl2" for row 3. *)
Definition filled_sheet_done : worksheet :=
  set_cell filled_sheet 3 2 (VStr "liveurl2").

(** A sheet with headers and no row in need of an image. *)
Definition idle_sheet : worksheet :=
  Worksheet "Cards"
    (list_to_map [((1, 1), VStr "Title"); ((1, 2), VStr "Image");
                  ((2, 1), VStr "Visa Gift Card");
                  ((2, 2), VStr "https://img.example.com/visa.png")]).


Definition cli_credentials : Google.credentials :=
  Google.Credentials (Some "key") (Some "cx") None None None None
    Google.KeyboardInterrupt Google.KeyboardInterrupt.

(** "The URL's host exactly equals or is a subdomain of an entry in the
    allow-list", case-insensitively; an empty allow-list admits anything. *)
Definition spec_host_allowed (allowed : list string) (host : string) : bool :=
  match allowed with
  | [] => true
  | _ =>
      existsb (fun d =>
                 bool_decide (PyStr.lower host = PyStr.lower d)
                 || PyStr.endswith (PyStr.lower host) ("." +:+ PyStr.lower d))
        allowed
  end.

(** * Properties *)

(** ** Strings *)

Lemma string_app_cons (c : ascii) (s t : string) :
  String c s +:+ t = String c (s +:+ t).
Proof. reflexivity. Qed.

Lemma string_app_nil_l (s : string) : "" +:+ s = s.
Proof. reflexivity. Qed.

Lemma string_app_nil_r (s : string) : s +:+ "" = s.
Proof.
  induction s as [|c s IH]; [done |]. by rewrite string_app_cons, IH.
Qed.

Lemma string_app_assoc (a b c : string) : (a +:+ b) +:+ c = a +:+ (b +:+ c).
Proof.
  induction a as [|x a IH]; [done |]. by rewrite !string_app_cons, IH.
Qed.

Lemma no_space_app (a b : string) :
  PyStr.no_space (a +:+ b) = PyStr.no_space a && PyStr.no_space b.
Proof.
  induction a as [|x a IH]; [done |].
  rewrite string_app_cons. simpl. rewrite IH.
  by destruct (PyStr.is_space x).
Qed.

(** Reading a run of non-whitespace characters only extends the word. *)
Lemma split_acc_run (w cur s : string) :
  PyStr.no_space w = true ->
  PyStr.split_acc cur (w +:+ s) = PyStr.split_acc (cur +:+ w) s.
Proof.
  revert cur. induction w as [|c w IH]; intros cur Hw.
  - by rewrite string_app_nil_r.
  - simpl in Hw. apply andb_prop in Hw as [Hc Hw].
    rewrite string_app_cons. cbn [PyStr.split_acc].
    destruct (PyStr.is_space c); [done |].
    rewrite IH by done. by rewrite string_app_assoc.
Qed.

Lemma split_acc_words (cur s : string) :
  PyStr.no_space cur = true ->
  Forall PyStr.is_word (PyStr.split_acc cur s).
Proof.
  revert cur. induction s as [|c s IH]; intros cur Hcur; simpl.
  - destruct (decide (cur = "")); [constructor |].
    by repeat constructor.
  - destruct (PyStr.is_space c) eqn:Hc.
    + destruct (decide (cur = "")); [by apply IH |].
      constructor; [done | by apply IH].
    + apply IH. rewrite no_space_app, Hcur. simpl. by rewrite Hc.
Qed.

(** [split] yields words. *)
Lemma split_words (s : string) : Forall PyStr.is_word (PyStr.split s).
Proof. by apply split_acc_words. Qed.

(** Splitting a string of words joined by single spaces gives the words. *)
Lemma split_join (tokens : list string) :
  Forall PyStr.is_word tokens ->
  PyStr.split (PyStr.join " " tokens) = tokens.
Proof.
  unfold PyStr.split.
  induction tokens as [|w rest IH]; intros Hall; [done |].
  apply Forall_cons in Hall as [[Hne Hw] Hrest].
  destruct rest as [|w2 rest].
  - simpl. rewrite <- (string_app_nil_r w) at 1.
    rewrite split_acc_run, string_app_nil_l by done. simpl.
    by destruct (decide (w = "")).
  - change (PyStr.join " " (w :: w2 :: rest))
      with (w +:+ " " +:+ PyStr.join " " (w2 :: rest)).
    rewrite split_acc_run, string_app_nil_l, string_app_cons by done.
    cbn [PyStr.split_acc]. change (PyStr.is_space " ") with true.
    cbv iota. rewrite string_app_nil_l.
    destruct (decide (w = "")); [done |].
    by rewrite IH.
Qed.

(** ** The first-occurrence loop *)

Lemma first_seen_out key items seen out :
  first_seen key items seen out = out ++ first_seen key items seen [].
Proof.
  revert seen out. induction items as [|w rest IH]; intros seen out; simpl.
  - by rewrite app_nil_r.
  - destruct (decide (key w ∈ seen)); [apply IH |].
    rewrite (IH _ (out ++ [w])), (IH _ [w]). by rewrite <- app_assoc.
Qed.

Lemma first_seen_cons key w rest seen :
  first_seen key (w :: rest) seen [] =
    if decide (key w ∈ seen) then first_seen key rest seen []
    else w :: first_seen key rest ({[key w]} ∪ seen) [].
Proof.
  simpl. destruct (decide (key w ∈ seen)); [done |].
  by rewrite first_seen_out.
Qed.

Lemma first_seen_sublist key items seen :
  sublist (first_seen key items seen []) items.
Proof.
  revert seen. induction items as [|w rest IH]; intros seen.
  - constructor.
  - rewrite first_seen_cons. destruct (decide (key w ∈ seen)).
    + by apply sublist_cons.
    + by apply sublist_skip.
Qed.

Lemma first_seen_keys key items seen k :
  k ∈ (key <$> first_seen key items seen []) ->
  (k ∉ seen) ∧ k ∈ (key <$> items).
Proof.
  revert seen. induction items as [|w rest IH]; intros seen.
  - simpl. by intros ?%elem_of_nil.
  - rewrite first_seen_cons. destruct (decide (key w ∈ seen)).
    + intros [? ?]%IH. split; [done |]. rewrite fmap_cons. by right.
    + rewrite !fmap_cons. intros [->|Hin]%elem_of_cons.
      * split; [done | by left].
      * apply IH in Hin as [Hn Hin]. split; [| by right].
        rewrite elem_of_union in Hn. tauto.
Qed.

Lemma first_seen_NoDup key items seen :
  NoDup (key <$> first_seen key items seen []).
Proof.
  revert seen. induction items as [|w rest IH]; intros seen.
  - constructor.
  - rewrite first_seen_cons. destruct (decide (key w ∈ seen)); [apply IH |].
    rewrite fmap_cons. constructor; [| apply IH].
    intros [Hn _]%first_seen_keys.
    apply Hn, elem_of_union. left. by apply elem_of_singleton.
Qed.

(** On a list whose keys are distinct and new, the loop changes nothing. *)
Lemma first_seen_id key items seen :
  NoDup (key <$> items) ->
  (forall k, k ∈ key <$> items -> k ∉ seen) ->
  first_seen key items seen [] = items.
Proof.
  revert seen. induction items as [|w rest IH]; intros seen Hnd Hnew; [done |].
  rewrite first_seen_cons. rewrite fmap_cons in Hnd, Hnew.
  apply NoDup_cons in Hnd as [Hw Hnd].
  destruct (decide (key w ∈ seen)) as [Hin|_].
  - exfalso. apply (Hnew (key w)); [by left | done].
  - f_equal. apply IH; [done |].
    intros k Hk. assert (k ∉ seen) by (apply Hnew; by right).
    assert (k <> key w) by (by intros ->).
    rewrite elem_of_union, elem_of_singleton. tauto.
Qed.

(** The loop computes the reference [spec_dedupe], when [seen] holds the
    keys of the tokens read so far. *)
Lemma first_seen_spec items seen earlier :
  (forall k, k ∈ seen <-> k ∈ PyStr.lower <$> earlier) ->
  first_seen PyStr.lower items seen [] = spec_dedupe earlier items.
Proof.
  revert seen earlier.
  induction items as [|w rest IH]; intros seen earlier Hinv; [done |].
  rewrite first_seen_cons. simpl.
  destruct (decide (PyStr.lower w ∈ seen)) as [Hin|Hnin];
    destruct (decide (PyStr.lower w ∈ PyStr.lower <$> earlier)) as [Hin'|Hnin'].
  - apply IH. intros k.
    rewrite fmap_app, elem_of_app, <- Hinv, list_fmap_singleton,
      list_elem_of_singleton.
    split; [tauto |]. by intros [?| ->].
  - exfalso. by apply Hnin', Hinv.
  - exfalso. by apply Hnin, Hinv.
  - f_equal. apply IH. intros k.
    rewrite fmap_app, elem_of_app, <- Hinv, list_fmap_singleton,
      list_elem_of_singleton, elem_of_union, elem_of_singleton.
    tauto.
Qed.

(** ** Word de-duplication *)

Lemma dedupe_words_tokens (text : string) :
  PyStr.split (dedupe_words text) =
    first_seen PyStr.lower (PyStr.split text) ∅ [].
Proof.
  unfold dedupe_words. apply split_join.
  apply Forall_forall. intros w Hw.
  pose proof (split_words text) as Hall.
  rewrite Forall_forall in Hall. apply Hall.
  eapply elem_of_sublist; [exact Hw | apply first_seen_sublist].
Qed.

Lemma dedupe_words_spec (text : string) :
  dedupe_words text = PyStr.join " " (spec_dedupe [] (PyStr.split text)).
Proof.
  unfold dedupe_words. f_equal. apply first_seen_spec.
  intros k. rewrite fmap_nil, elem_of_nil. set_solver.
Qed.

(** C10: [dedupe_words] is idempotent, and the words of its result are a
    subsequence of the words of its argument. *)
Theorem dedupe_words_idempotent (s : string) :
  dedupe_words (dedupe_words s) = dedupe_words s
  ∧ sublist (PyStr.split (dedupe_words s)) (PyStr.split s).
Proof.
  split.
  - unfold dedupe_words at 1. rewrite dedupe_words_tokens.
    unfold dedupe_words. f_equal.
    apply first_seen_id; [apply first_seen_NoDup |].
    intros k _. apply not_elem_of_empty.
  - rewrite dedupe_words_tokens. apply first_seen_sublist.
Qed.

(** C2 (as amended): in the Bing and Google scripts the query is the
    concatenation of the trimmed title and the trimmed optional values, split
    on whitespace, with every word dropped whose lower-case form occurred
    earlier, in the original order and spelling, joined by single spaces; no
    two of its words are equal up to case.  The Pixabay script joins the same
    parts by single spaces and removes nothing. *)
Theorem build_query_deduplicated (title : string) (ws : worksheet) (row : nat)
    (cols : gmap string nat) :
  let parts := PyStr.strip title :: optional_bits ws row cols in
  let tokens := PyStr.split (PyStr.join " " parts) in
  Bing.build_query title ws row cols = PyStr.join " " (spec_dedupe [] tokens)
  ∧ PyStr.split (Bing.build_query title ws row cols) = spec_dedupe [] tokens
  ∧ NoDup (PyStr.lower <$> PyStr.split (Bing.build_query title ws row cols))
  ∧ sublist (PyStr.split (Bing.build_query title ws row cols)) tokens
  ∧ Google.build_query title ws row cols = Bing.build_query title ws row cols
  ∧ Pixabay.build_query title ws row cols = PyStr.join " " parts.
Proof.
  intros parts tokens. unfold Bing.build_query, Google.build_query.
  fold parts. repeat split.
  - apply dedupe_words_spec.
  - rewrite dedupe_words_tokens. apply first_seen_spec.
    intros k. rewrite fmap_nil, elem_of_nil. set_solver.
  - rewrite dedupe_words_tokens. apply first_seen_NoDup.
  - rewrite dedupe_words_tokens. apply first_seen_sublist.
Qed.

(** C2 (as stated) fails for the Pixabay script: the query built from the
    title "India India" keeps both words. *)
Lemma pixabay_query_keeps_duplicates :
  Pixabay.build_query "India India" blank_sheet 2 ∅ = "India India"
  ∧ ¬ NoDup (PyStr.lower <$>
               PyStr.split (Pixabay.build_query "India India" blank_sheet 2 ∅)).
Proof.
  split; [reflexivity |].
  intros Hnd. apply NoDup_cons in Hnd as [Hnin _].
  apply Hnin. vm_compute. left.
Qed.

(** ** Running computations *)

Section Runs.
Context {env : Environment}.

Lemma bind_run {A B} (m : M A) (f : A -> M B) w :
  bind m f w =
    match m w with
    | (Ok a, w1, e1) =>
        (res_of (f a w1), world_of (f a w1), e1 ++ events_of (f a w1))
    | (Raised x, w1, e1) => (Raised x, w1, e1)
    end.
Proof.
  unfold bind, res_of, world_of, events_of.
  destruct (m w) as [[[a|x] w1] e1]; [| done].
  by destruct (f a w1) as [[r w2] e2].
Qed.

Lemma run_eta {A} (x : result A * world * list event) :
  x = (res_of x, world_of x, events_of x).
Proof. by destruct x as [[r w] e]. Qed.

Lemma res_of_mk {A} (r : result A) (w : world) (evs : list event) :
  res_of (r, w, evs) = r.
Proof. reflexivity. Qed.

Lemma world_of_mk {A} (r : result A) (w : world) (evs : list event) :
  world_of (r, w, evs) = w.
Proof. reflexivity. Qed.

Lemma events_of_mk {A} (r : result A) (w : world) (evs : list event) :
  events_of (r, w, evs) = evs.
Proof. reflexivity. Qed.

(** [head_ok] sends one probe, never raises, and answers whether the probe
    was live. *)
Lemma head_ok_run (url : string) (timeout : nat) (w : world) :
  head_ok url timeout w =
    (Ok (is_live (requests_head url timeout w).1),
     (requests_head url timeout w).2,
     [EvHead url timeout (requests_head url timeout w).1]).
Proof.
  unfold head_ok, try_except, http_head, bind, ret, is_live.
  destruct (requests_head url timeout w) as [[r|e] w']; simpl; [| done].
  do 3 f_equal. f_equal. lia.
Qed.

End Runs.

(** C6: the liveness probe returns true exactly when the probe got a
    response whose status is between 200 and 399; a network error, a timeout
    or a malformed URL gives false, and no exception leaves [head_ok]. *)
Theorem head_ok_live_iff `{env : Environment} (url : string) (timeout : nat)
    (w : world) :
  ∃ b : bool,
    res_of (head_ok url timeout w) = Ok b
    ∧ (b = true ↔
       ∃ r, (requests_head url timeout w).1 = Responded r
            ∧ (200 <= status_code r <= 399)%Z)
    ∧ (∀ e, (requests_head url timeout w).1 = Failed e -> b = false)
    ∧ events_of (head_ok url timeout w) =
        [EvHead url timeout (requests_head url timeout w).1].
Proof.
  rewrite head_ok_run. unfold res_of, events_of. simpl.
  eexists. split; [reflexivity |]. split; [| split; [| reflexivity]].
  - destruct (requests_head url timeout w).1 as [r|e]; simpl.
    + split.
      * intros H. exists r. split; [done | lia].
      * intros (r' & [= <-] & H). lia.
    + split; [done |]. by intros (r' & ? & _).
  - by intros e ->.
Qed.

(** ** Choice of the first live candidate *)

Section FirstLiveFacts.
Context {env : Environment}.

Lemma probes_app evs1 evs2 : probes (evs1 ++ evs2) = probes evs1 ++ probes evs2.
Proof. apply omap_app. Qed.

Lemma gets_app evs1 evs2 : gets (evs1 ++ evs2) = gets evs1 ++ gets evs2.
Proof. apply omap_app. Qed.

Lemma sleeps_app evs1 evs2 : sleeps (evs1 ++ evs2) = sleeps evs1 ++ sleeps evs2.
Proof. apply omap_app. Qed.

Lemma writes_app evs1 evs2 : writes (evs1 ++ evs2) = writes evs1 ++ writes evs2.
Proof. apply omap_app. Qed.

Lemma probes_head url t o evs :
  probes (EvHead url t o :: evs) = (url, is_live o) :: probes evs.
Proof. reflexivity. Qed.

Lemma bing_candidates_app evs1 evs2 :
  bing_candidates (evs1 ++ evs2) = bing_candidates evs1 ++ bing_candidates evs2.
Proof. apply List.flat_map_app. Qed.

(** The request of the [try] blocks of the Bing and Pixabay scripts: the
    response when it passes [raise_for_status], nothing otherwise. *)
Lemma try_get_run (req : request) (w : world) :
  try_except
    (let* r := http_get req in
     let* _ := raise_for_status r in
     ret (Some r))
    (fun _ => ret None) w =
  (Ok (match (requests_get req w).1 with
       | Responded r => if passes r then Some r else None
       | Failed _ => None
       end),
   (requests_get req w).2,
   [EvGet req (requests_get req w).1]).
Proof.
  unfold try_except, bind, http_get, raise_for_status, passes, raise, ret.
  destruct (requests_get req w) as [[r|e] w1]; simpl; [| done].
  by destruct ((400 <=? status_code r)%Z && (status_code r <? 600)%Z).
Qed.

Lemma only_heads_nil : only_heads [].
Proof. done. Qed.

Lemma only_heads_cons url t o evs :
  only_heads evs -> only_heads (EvHead url t o :: evs).
Proof. by intros (? & ? & ? & ?). Qed.

Lemma selection_dead_cons c t o candidates found evs :
  is_live o = false -> t = 10 ->
  selection candidates found evs ->
  selection (c :: candidates) found (EvHead c t o :: evs).
Proof.
  intros Hdead -> [Hheads Hsel]. split; [by apply only_heads_cons |].
  destruct found as [u|].
  - destruct Hsel as (pre & post & -> & Hp & evs0 & o' & ->).
    exists (c :: pre), post. split; [done |]. split.
    + by rewrite probes_head, Hp, Hdead.
    + by exists (EvHead c 10 o :: evs0), o'.
  - by rewrite probes_head, Hsel, Hdead.
Qed.

Lemma selection_live c o candidates :
  is_live o = true ->
  selection (c :: candidates) (Some c) [EvHead c 10 o].
Proof.
  intros Hlive. split; [by apply only_heads_cons |].
  exists [], candidates. split; [done |]. split.
  - cbn. by rewrite Hlive.
  - by exists [], o.
Qed.

(** The loop of the Google script examines the candidates in order and
    stops at the first live one. *)
Lemma first_live_selection (candidates : list string) (w : world) :
  ∃ found,
    res_of (first_live candidates w) = Ok found
    ∧ selection candidates found (events_of (first_live candidates w)).
Proof.
  revert w. induction candidates as [|c rest IH]; intros w.
  - exists None. by repeat split.
  - cbn [first_live]. rewrite bind_run, head_ok_run.
    destruct (is_live (requests_head c 10 w).1) eqn:Hlive.
    + exists (Some c). split; [done |]. by apply selection_live.
    + destruct (IH (requests_head c 10 w).2) as (found & Hres & Hsel).
      exists found. split; [done |]. by apply selection_dead_cons.
Qed.

(** The inner loop of the Bing script does the same over the admissible
    candidates, and probes no other. *)
Lemma first_allowed_live_selection (allowed : list string)
    (candidates : list string) (w : world) :
  ∃ found,
    res_of (Bing.first_allowed_live allowed candidates w) = Ok found
    ∧ selection (List.filter (Bing.domain_is_allowed allowed) candidates) found
        (events_of (Bing.first_allowed_live allowed candidates w)).
Proof.
  revert w. induction candidates as [|c rest IH]; intros w.
  - exists None. by repeat split.
  - cbn [Bing.first_allowed_live List.filter].
    destruct (Bing.domain_is_allowed allowed c); cbn [negb]; [| apply IH].
    rewrite bind_run, head_ok_run.
    destruct (is_live (requests_head c 10 w).1) eqn:Hlive.
    + exists (Some c). split; [done |]. by apply selection_live.
    + destruct (IH (requests_head c 10 w).2) as (found & Hres & Hsel).
      exists found. split; [done |]. by apply selection_dead_cons.
Qed.

End FirstLiveFacts.

Section BingPages.
Context {env : Environment}.
Variable allowed : list string.

Lemma bing_candidates_get q first r :
  bing_candidates [EvGet (BingSearch q first) (Responded r)] =
    if passes r then Bing.parse_bing_image_results (text r) else [].
Proof. unfold bing_candidates. simpl. by rewrite app_nil_r. Qed.

Lemma dead_app l1 l2 : dead (l1 ++ l2) = dead l1 ++ dead l2.
Proof. apply fmap_app. Qed.

(** One page of [bing_pages]: the request, then either the next page (the
    request failed), or the selection among its candidates followed, when
    none is live, by the pause and the next page. *)
Lemma bing_pages_cons q first rest w :
  Bing.bing_pages allowed q (first :: rest) w =
    let req := BingSearch q first in
    let w1 := (requests_get req w).2 in
    let ev := EvGet req (requests_get req w).1 in
    match (requests_get req w).1 with
    | Responded r =>
        if passes r then
          let inner :=
            Bing.first_allowed_live allowed
              (Bing.parse_bing_image_results (text r)) w1 in
          match res_of inner with
          | Ok (Some u) => (Ok (Some u), world_of inner, ev :: events_of inner)
          | Ok None =>
              let next := Bing.bing_pages allowed q rest (world_of inner) in
              (res_of next, world_of next,
               ev :: events_of inner ++ EvSleep 300 :: events_of next)
          | Raised x => (Raised x, world_of inner, ev :: events_of inner)
          end
        else
          let next := Bing.bing_pages allowed q rest w1 in
          (res_of next, world_of next, ev :: events_of next)
    | Failed _ =>
        let next := Bing.bing_pages allowed q rest w1 in
        (res_of next, world_of next, ev :: events_of next)
    end.
Proof.
  cbn [Bing.bing_pages]. rewrite bind_run, try_get_run. cbv zeta.
  destruct (requests_get (BingSearch q first) w).1 as [r|e]; [| done].
  destruct (passes r); [| done].
  rewrite bind_run.
  destruct (Bing.first_allowed_live allowed _ _) as [[[[u|]|x] w2] e2];
    unfold res_of, world_of, events_of; cbn [fst snd]; try done.
  - by rewrite app_nil_r.
  - rewrite bind_run. unfold sleep, emit, res_of, world_of, events_of.
    cbn [fst snd]. done.
Qed.

Lemma bing_pages_selection q pages w :
  ∃ found k,
    res_of (Bing.bing_pages allowed q pages w) = Ok found
    ∧ gets (events_of (Bing.bing_pages allowed q pages w)) =
        BingSearch q <$> take k pages
    ∧ writes (events_of (Bing.bing_pages allowed q pages w)) = []
    ∧ match found with
      | Some u =>
          ∃ pre post evs0 o,
            List.filter (Bing.domain_is_allowed allowed)
              (bing_candidates (events_of (Bing.bing_pages allowed q pages w)))
              = pre ++ u :: post
            ∧ probes (events_of (Bing.bing_pages allowed q pages w)) =
                dead pre ++ [(u, true)]
            ∧ events_of (Bing.bing_pages allowed q pages w) =
                evs0 ++ [EvHead u 10 o]
      | None =>
          probes (events_of (Bing.bing_pages allowed q pages w)) =
            dead (List.filter (Bing.domain_is_allowed allowed)
                    (bing_candidates
                       (events_of (Bing.bing_pages allowed q pages w))))
          ∧ k = length pages
      end.
Proof.
  revert w. induction pages as [|first rest IH]; intros w.
  - exists None, 0. by repeat split.
  - rewrite bing_pages_cons. cbv zeta.
    set (req := BingSearch q first).
    set (w1 := (requests_get req w).2).
    assert (Hskip : ∀ o,
      (match o with Responded r => passes r | Failed _ => false end) = false ->
      ∃ found k,
        res_of (Bing.bing_pages allowed q rest w1) = Ok found
        ∧ gets (EvGet req o :: events_of (Bing.bing_pages allowed q rest w1)) =
            BingSearch q <$> take k (first :: rest)
        ∧ writes (EvGet req o :: events_of (Bing.bing_pages allowed q rest w1)) = []
        ∧ match found with
          | Some u =>
              ∃ pre post evs0 o',
                List.filter (Bing.domain_is_allowed allowed)
                  (bing_candidates
                     (EvGet req o :: events_of (Bing.bing_pages allowed q rest w1)))
                  = pre ++ u :: post
                ∧ probes (EvGet req o :: events_of (Bing.bing_pages allowed q rest w1)) =
                    dead pre ++ [(u, true)]
                ∧ EvGet req o :: events_of (Bing.bing_pages allowed q rest w1) =
                    evs0 ++ [EvHead u 10 o']
          | None =>
              probes (EvGet req o :: events_of (Bing.bing_pages allowed q rest w1)) =
                dead (List.filter (Bing.domain_is_allowed allowed)
                        (bing_candidates
                           (EvGet req o :: events_of (Bing.bing_pages allowed q rest w1))))
              ∧ k = length (first :: rest)
          end).
    { intros o Ho.
      destruct (IH w1) as (found & k & Hres & Hgets & Hwr & Hfound).
      exists found, (S k). split; [done |]. split.
      { change (gets (EvGet req o :: ?l)) with (req :: gets l).
        by rewrite Hgets. }
      split; [done |].
      assert (Hc : bing_candidates
                (EvGet req o :: events_of (Bing.bing_pages allowed q rest w1)) =
              bing_candidates (events_of (Bing.bing_pages allowed q rest w1))).
      { change (EvGet req o :: ?l) with ([EvGet req o] ++ l).
        rewrite bing_candidates_app. unfold req.
        destruct o as [r|e]; [| done].
        rewrite bing_candidates_get. simpl in Ho. by rewrite Ho. }
      rewrite Hc.
      destruct found as [u|].
      - destruct Hfound as (pre & post & evs0 & o' & Hf & Hp & He).
        exists pre, post, (EvGet req o :: evs0), o'.
        split; [done |]. split; [done |]. by rewrite He.
      - destruct Hfound as [Hp ->]. by split. }
    destruct (requests_get req w).1 as [r|e];
      [| rewrite res_of_mk, !events_of_mk; by apply Hskip].
    destruct (passes r) eqn:Hpass;
      [| rewrite res_of_mk, !events_of_mk; by apply Hskip].
    clear Hskip.
    destruct (first_allowed_live_selection allowed
                (Bing.parse_bing_image_results (text r)) w1)
      as (found & Hres & Hheads & Hsel).
    destruct Hheads as (Hg & Hs & Hw & Hc).
    rewrite Hres.
    assert (Hcands : ∀ tail,
      bing_candidates (EvGet req (Responded r) ::
        events_of (Bing.first_allowed_live allowed
                     (Bing.parse_bing_image_results (text r)) w1) ++ tail) =
      Bing.parse_bing_image_results (text r) ++ bing_candidates tail).
    { intros tail. change (EvGet req ?o :: ?l) with ([EvGet req o] ++ l).
      rewrite !bing_candidates_app, Hc. unfold req.
      by rewrite bing_candidates_get, Hpass. }
    destruct found as [u|]; cbv beta iota; rewrite res_of_mk, !events_of_mk.
    + exists (Some u), 1. split; [done |]. split.
      { change (gets (EvGet req ?o :: ?l)) with (req :: gets l).
        by rewrite Hg. }
      split.
      { change (writes (EvGet req ?o :: ?l)) with (writes l).
        by rewrite Hw. }
      destruct Hsel as (pre & post & Hf & Hp & evs0 & o & He).
      exists pre, post, (EvGet req (Responded r) :: evs0), o.
      split.
      { specialize (Hcands []). rewrite !app_nil_r in Hcands.
        by rewrite Hcands. }
      split; [done |]. by rewrite He.
    + destruct (IH (world_of (Bing.first_allowed_live allowed
                   (Bing.parse_bing_image_results (text r)) w1)))
        as (found & k & Hres' & Hgets & Hwr & Hfound).
      set (inner := Bing.first_allowed_live allowed
                      (Bing.parse_bing_image_results (text r)) w1) in *.
      set (next := Bing.bing_pages allowed q rest (world_of inner)) in *.
      exists found, (S k). split; [done |].
      assert (Hprobes :
        probes (EvGet req (Responded r) :: events_of inner
                ++ EvSleep 300 :: events_of next) =
        dead (List.filter (Bing.domain_is_allowed allowed)
                (Bing.parse_bing_image_results (text r)))
        ++ probes (events_of next)).
      { change (probes (EvGet req (Responded r) :: ?l)) with (probes l).
        rewrite probes_app. by rewrite Hsel. }
      split.
      { change (gets (EvGet req (Responded r) :: ?l)) with (req :: gets l).
        rewrite gets_app, Hg.
        change (gets (EvSleep 300 :: ?l)) with (gets l).
        by rewrite Hgets. }
      split.
      { change (writes (EvGet req (Responded r) :: ?l)) with (writes l).
        rewrite writes_app, Hw.
        change (writes (EvSleep 300 :: ?l)) with (writes l).
        by rewrite Hwr. }
      rewrite Hcands, Hprobes.
      change (bing_candidates (EvSleep 300 :: ?l)) with (bing_candidates l).
      rewrite List.filter_app.
      destruct found as [u|].
      * destruct Hfound as (pre & post & evs0 & o & Hf & Hp & He).
        exists (List.filter (Bing.domain_is_allowed allowed)
                  (Bing.parse_bing_image_results (text r)) ++ pre), post,
               (EvGet req (Responded r) :: events_of inner ++ EvSleep 300 :: evs0), o.
        split; [by rewrite Hf, <- app_assoc |].
        split; [by rewrite Hp, dead_app, <- app_assoc |].
        rewrite He. simpl. by rewrite <- !app_assoc.
      * destruct Hfound as [Hp ->]. split; [| done].
        by rewrite Hp, dead_app.
Qed.

End BingPages.

(** C4: candidates are examined page by page and, within a page, in the
    order of the provider; the first one that is admissible and live is
    returned at once, and nothing is requested or probed after it. *)
Theorem first_admissible_live_wins `{env : Environment} (allowed : list string)
    (query : string) (candidates : list string) (w : world) :
  (∃ found,
     res_of (Bing.bing_first_live_image allowed query w) = Ok found
     ∧ bing_resolution allowed query found
         (events_of (Bing.bing_first_live_image allowed query w)))
  ∧ (∃ found,
       res_of (first_live candidates w) = Ok found
       ∧ selection candidates found (events_of (first_live candidates w))).
Proof.
  split; [| apply first_live_selection].
  unfold Bing.bing_first_live_image.
  destruct (bing_pages_selection allowed query Bing.BING_PAGES_FIRST_PARAMS w)
    as (found & k & Hres & Hgets & _ & Hfound).
  exists found. split; [done |]. split.
  - exists k. split; [done |]. intros ->. by destruct Hfound.
  - destruct found as [u|]; [done |]. by destruct Hfound.
Qed.

(** The example of the specification: of "deadurl1", "liveurl2", "liveurl3"
    the second is chosen and the third is never probed. *)
Example short_circuit_example :
  res_of (@Bing.bing_first_live_image shop_env [] "gift card" tt) = Ok (Some "liveurl2")
  ∧ probes (events_of (@Bing.bing_first_live_image shop_env [] "gift card" tt)) =
      [("deadurl1", false); ("liveurl2", true)]
  ∧ gets (events_of (@Bing.bing_first_live_image shop_env [] "gift card" tt)) =
      [BingSearch "gift card" 1]
  ∧ res_of (@Google.find_image shop_env "k" "c" "gift card" tt) = Ok (Some "liveurl2")
  ∧ probes (events_of (@Google.find_image shop_env "k" "c" "gift card" tt)) =
      [("deadurl1", false); ("liveurl2", true)].
Proof. vm_compute. done. Qed.

(** ** Rate limiting *)

Section RateLimit.
Context {env : Environment}.

(** The request of [google_image_search] with its single retry. *)
Lemma google_image_search_run key cx query num w :
  Google.google_image_search key cx query num w =
    let params := GoogleSearch key cx query (Z.min (Z.max 1 num) 10) in
    let o1 := (requests_get params w).1 in
    let w1 := (requests_get params w).2 in
    let finish (o : outcome) (w' : world) (evs : list event) :=
      match o with
      | Responded r =>
          if passes r then (google_links r, w', evs) else (Ok [], w', evs)
      | Failed _ => (Ok [], w', evs)
      end in
    match o1 with
    | Responded r1 =>
        if (status_code r1 =? 429)%Z then
          finish (requests_get params w1).1 (requests_get params w1).2
            [EvGet params o1; EvSleep 2000;
             EvGet params (requests_get params w1).1]
        else finish o1 w1 [EvGet params o1]
    | Failed _ => finish o1 w1 [EvGet params o1]
    end.
Proof.
  unfold Google.google_image_search, google_links, try_except, bind,
    http_get, raise_for_status, passes, sleep, emit, raise, ret.
  cbv zeta.
  destruct (requests_get _ w) as [[r1|e1] w1]; cbn [fst snd]; [| done].
  destruct (status_code r1 =? 429)%Z eqn:H429.
  - destruct (requests_get _ w1) as [[r2|e2] w2]; cbn [fst snd]; [| done].
    destruct ((400 <=? status_code r2)%Z && (status_code r2 <? 600)%Z);
      cbn [negb]; [done |].
    by destruct (google_items (text r2)).
  - destruct ((400 <=? status_code r1)%Z && (status_code r1 <? 600)%Z);
      cbn [negb]; [done |].
    by destruct (google_items (text r1)).
Qed.

Lemma pixabay_run key query w :
  PyStr.truthy key = true ->
  Pixabay.pixabay_first_image_url key query w =
    let req := PixabaySearch key query in
    let o := (requests_get req w).1 in
    let w1 := (requests_get req w).2 in
    match o with
    | Responded r =>
        if passes r then
          match pixabay_hits (text r) with
          | None => (Raised JSONDecodeError, w1, [EvGet req o])
          | Some hits =>
              (res_of (Pixabay.first_live_hit hits w1),
               world_of (Pixabay.first_live_hit hits w1),
               EvGet req o :: events_of (Pixabay.first_live_hit hits w1))
          end
        else (Ok None, w1, [EvGet req o])
    | Failed _ => (Ok None, w1, [EvGet req o])
    end.
Proof.
  intros Hkey. unfold Pixabay.pixabay_first_image_url. rewrite Hkey.
  cbn [negb]. rewrite bind_run, try_get_run. cbv zeta.
  destruct (requests_get _ w).1 as [r|e]; [| done].
  destruct (passes r); [| done].
  destruct (pixabay_hits (text r)) as [[|h hits]|]; try done.
Qed.

End RateLimit.

(** C7 (as amended): in the Google script a 429 response is followed by one
    pause of two seconds and one retry of the same request, and nothing
    more; when the retry is answered 429 again, or fails, the search yields
    no candidate.  The Bing and Pixabay scripts treat a 429 response like
    any failed request: no pause, no retry; Bing goes on to the next page,
    Pixabay yields nothing. *)
Theorem rate_limit_handling `{env : Environment} (w : world) :
  (∀ key cx query num r1,
     let params := GoogleSearch key cx query (Z.min (Z.max 1 num) 10) in
     (requests_get params w).1 = Responded r1 ->
     status_code r1 = 429%Z ->
     let w1 := (requests_get params w).2 in
     let o2 := (requests_get params w1).1 in
     let run := Google.google_image_search key cx query num w in
     events_of run = [EvGet params (Responded r1); EvSleep 2000; EvGet params o2]
     ∧ (∀ r2, o2 = Responded r2 -> status_code r2 = 429%Z -> res_of run = Ok [])
     ∧ (∀ e, o2 = Failed e -> res_of run = Ok [])
     ∧ (∀ r2, o2 = Responded r2 -> passes r2 = true ->
          res_of run = google_links r2))
  ∧ (∀ allowed query first rest r,
       let req := BingSearch query first in
       (requests_get req w).1 = Responded r ->
       status_code r = 429%Z ->
       let next := Bing.bing_pages allowed query rest (requests_get req w).2 in
       Bing.bing_pages allowed query (first :: rest) w =
         (res_of next, world_of next, EvGet req (Responded r) :: events_of next))
  ∧ (∀ key query r,
       let req := PixabaySearch key query in
       PyStr.truthy key = true ->
       (requests_get req w).1 = Responded r ->
       status_code r = 429%Z ->
       Pixabay.pixabay_first_image_url key query w =
         (Ok None, (requests_get req w).2, [EvGet req (Responded r)])).
Proof.
  split; [| split].
  - intros key cx query num r1 params Ho1 H429 w1 o2 run.
    unfold run. rewrite google_image_search_run. cbv zeta.
    fold params. rewrite Ho1, H429. cbn [Z.eqb Pos.eqb].
    fold w1. fold o2.
    destruct o2 as [r2|e2] eqn:Ho2.
    + destruct (passes r2) eqn:Hp; rewrite res_of_mk, events_of_mk.
      * split; [done |]. split; [| split]; [| done |].
        -- intros r2' [= <-] H2. unfold passes in Hp. rewrite H2 in Hp.
           discriminate.
        -- by intros r2' [= <-] _.
      * split; [done |]. split; [done |]. split; [done |].
        intros r2' [= <-] Hp'. congruence.
    + rewrite res_of_mk, events_of_mk. by repeat split.
  - intros allowed query first rest r req Ho H429 next.
    rewrite bing_pages_cons. cbv zeta. fold req. rewrite Ho.
    unfold passes. rewrite H429. done.
  - intros key query r req Hkey Ho H429.
    rewrite pixabay_run by done. cbv zeta. fold req. rewrite Ho.
    unfold passes. rewrite H429. done.
Qed.

(** C7: a network that answers every search with 429. *)
Lemma rate_limit_handling_witness :
  events_of (@Google.google_image_search throttled_env "k" "c" "visa" 10 tt) =
    [EvGet (GoogleSearch "k" "c" "visa" 10)
       (Responded (Response 429 "Too Many Requests"));
     EvSleep 2000;
     EvGet (GoogleSearch "k" "c" "visa" 10)
       (Responded (Response 429 "Too Many Requests"))]
  ∧ res_of (@Google.google_image_search throttled_env "k" "c" "visa" 10 tt) = Ok []
  ∧ @Pixabay.pixabay_first_image_url throttled_env "k" "visa" tt =
      (Ok None, tt,
       [EvGet (PixabaySearch "k" "visa")
          (Responded (Response 429 "Too Many Requests"))]).
Proof.
  destruct (@rate_limit_handling throttled_env tt) as (HG & HB & HP).
  destruct (HG "k" "c" "visa" 10%Z (Response 429 "Too Many Requests")
              eq_refl eq_refl) as (Hev & H429 & _).
  split; [exact Hev |]. split.
  - exact (H429 (Response 429 "Too Many Requests") eq_refl eq_refl).
  - exact (HP "k" "visa" (Response 429 "Too Many Requests")
             eq_refl eq_refl eq_refl).
Defined.

(** C7 (as stated) fails for the Bing and Pixabay scripts: answered 429,
    they neither pause nor send the same request again. *)
Lemma no_retry_outside_google :
  gets (events_of (@Bing.bing_first_live_image throttled_env [] "visa" tt)) =
    [BingSearch "visa" 1; BingSearch "visa" 11]
  ∧ sleeps (events_of (@Bing.bing_first_live_image throttled_env [] "visa" tt)) = []
  ∧ gets (events_of (@Pixabay.pixabay_first_image_url throttled_env "k" "visa" tt)) =
      [PixabaySearch "k" "visa"]
  ∧ sleeps (events_of (@Pixabay.pixabay_first_image_url throttled_env "k" "visa" tt)) = [].
Proof. vm_compute. done. Qed.

(** ** Worksheets *)

Lemma elem_of_columns (ws : worksheet) (c : nat) :
  c ∈ (snd <$> (map_to_list (ws_cells ws)).*1)
  ↔ ∃ r v, ws_cells ws !! (r, c) = Some v.
Proof.
  rewrite list_elem_of_fmap. split.
  - intros ([r c'] & -> & Hin).
    apply list_elem_of_fmap in Hin as ([k v] & Heq & Hin).
    simpl in Heq. subst k.
    apply elem_of_map_to_list in Hin. by exists r, v.
  - intros (r & v & Hin). exists (r, c). split; [done |].
    apply list_elem_of_fmap. exists ((r, c), v). split; [done |].
    by apply elem_of_map_to_list.
Qed.

Lemma elem_of_rows (ws : worksheet) (r : nat) :
  r ∈ (fst <$> (map_to_list (ws_cells ws)).*1)
  ↔ ∃ c v, ws_cells ws !! (r, c) = Some v.
Proof.
  rewrite list_elem_of_fmap. split.
  - intros ([r' c] & -> & Hin).
    apply list_elem_of_fmap in Hin as ([k v] & Heq & Hin).
    simpl in Heq. subst k.
    apply elem_of_map_to_list in Hin. by exists c, v.
  - intros (c & v & Hin). exists (r, c). split; [done |].
    apply list_elem_of_fmap. exists ((r, c), v). split; [done |].
    by apply elem_of_map_to_list.
Qed.

(** The largest element of a list that starts with 1. *)
Lemma max_list_from_one (l : list nat) (m : nat) :
  max_list (1 :: l) = m
  ↔ 1 ≤ m ∧ (∀ x, x ∈ l -> x ≤ m) ∧ (m = 1 ∨ m ∈ l).
Proof.
  split.
  - intros <-. split; [| split].
    + apply max_list_elem_of_le. by left.
    + intros x Hx. apply max_list_elem_of_le. by right.
    + assert (Hin : max_list (1 :: l) ∈ 1 :: l) by by apply max_list_elem_of.
      apply elem_of_cons in Hin. tauto.
  - intros (H1 & Hub & Hin). apply Nat.le_antisymm.
    + assert (Hm : max_list (1 :: l) ∈ 1 :: l) by by apply max_list_elem_of.
      apply elem_of_cons in Hm as [-> | Hm]; [done | by apply Hub].
    + apply max_list_elem_of_le. destruct Hin as [-> | Hin]; [by left | by right].
Qed.

Lemma max_column_spec (ws : worksheet) (m : nat) :
  max_column ws = m
  ↔ 1 ≤ m
    ∧ (∀ r c v, ws_cells ws !! (r, c) = Some v -> c ≤ m)
    ∧ (m = 1 ∨ ∃ r v, ws_cells ws !! (r, m) = Some v).
Proof.
  unfold max_column. rewrite max_list_from_one.
  split; intros (H1 & Hub & Hin); (split; [done |]); split.
  - intros r c v Hc. apply Hub, elem_of_columns. eauto.
  - destruct Hin as [-> | Hin]; [by left |]. right. by apply elem_of_columns.
  - intros c (r & v & Hc)%elem_of_columns. eauto.
  - destruct Hin as [-> | Hin]; [by left |]. right. by apply elem_of_columns.
Qed.

Lemma max_row_spec (ws : worksheet) (m : nat) :
  max_row ws = m
  ↔ 1 ≤ m
    ∧ (∀ r c v, ws_cells ws !! (r, c) = Some v -> r ≤ m)
    ∧ (m = 1 ∨ ∃ c v, ws_cells ws !! (m, c) = Some v).
Proof.
  unfold max_row. rewrite max_list_from_one.
  split; intros (H1 & Hub & Hin); (split; [done |]); split.
  - intros r c v Hc. apply Hub, elem_of_rows. eauto.
  - destruct Hin as [-> | Hin]; [by left |]. right. by apply elem_of_rows.
  - intros r (c & v & Hc)%elem_of_rows. eauto.
  - destruct Hin as [-> | Hin]; [by left |]. right. by apply elem_of_rows.
Qed.

Lemma max_column_pos (ws : worksheet) : 1 ≤ max_column ws.
Proof. by destruct (proj1 (max_column_spec ws _) eq_refl). Qed.

Lemma max_row_pos (ws : worksheet) : 1 ≤ max_row ws.
Proof. by destruct (proj1 (max_row_spec ws _) eq_refl). Qed.


Lemma cell_value_set_cell (ws : worksheet) (r c : nat) (v : value) (r' c' : nat) :
  cell_value (set_cell ws r c v) r' c' =
    if decide ((r, c) = (r', c')) then v else cell_value ws r' c'.
Proof.
  unfold cell_value, set_cell. simpl. rewrite lookup_insert.
  by destruct (decide ((r, c) = (r', c'))).
Qed.

Lemma cell_value_set_cell_eq (ws : worksheet) (r c : nat) (v : value) :
  cell_value (set_cell ws r c v) r c = v.
Proof. rewrite cell_value_set_cell. by rewrite decide_True. Qed.

Lemma cell_value_set_cell_ne (ws : worksheet) (r c : nat) (v : value) (r' c' : nat) :
  (r, c) ≠ (r', c') ->
  cell_value (set_cell ws r c v) r' c' = cell_value ws r' c'.
Proof. intros Hne. rewrite cell_value_set_cell. by rewrite decide_False. Qed.

Lemma max_column_set_cell (ws : worksheet) (r c : nat) (v : value) :
  max_column (set_cell ws r c v) = max_column ws `max` c.
Proof.
  apply max_column_spec.
  destruct (proj1 (max_column_spec ws _) eq_refl) as (H1 & Hub & Hin).
  split; [lia |]. split.
  - intros r' c' v'. unfold set_cell. simpl. rewrite lookup_insert.
    destruct (decide ((r, c) = (r', c'))) as [[= <- <-]|_]; [lia |].
    intros Hc%Hub. lia.
  - destruct (decide (max_column ws `max` c = 1)) as [|Hne]; [by left |].
    right. destruct (decide (c ≤ max_column ws)) as [Hle|Hgt].
    + replace (max_column ws `max` c) with (max_column ws) in * by lia.
      destruct Hin as [Hin | (r' & v' & Hin)]; [done |].
      unfold set_cell. simpl.
      destruct (decide ((r, c) = (r', max_column ws))) as [Heq|Hneq].
      * exists r', v. rewrite <- Heq. apply lookup_insert_eq.
      * exists r', v'. by rewrite lookup_insert_ne.
    + replace (max_column ws `max` c) with c by lia.
      exists r, v. unfold set_cell. simpl. apply lookup_insert_eq.
Qed.

Lemma max_row_set_cell (ws : worksheet) (r c : nat) (v : value) :
  max_row (set_cell ws r c v) = max_row ws `max` r.
Proof.
  apply max_row_spec.
  destruct (proj1 (max_row_spec ws _) eq_refl) as (H1 & Hub & Hin).
  split; [lia |]. split.
  - intros r' c' v'. unfold set_cell. simpl. rewrite lookup_insert.
    destruct (decide ((r, c) = (r', c'))) as [[= <- <-]|_]; [lia |].
    intros Hc%Hub. lia.
  - destruct (decide (max_row ws `max` r = 1)) as [|Hne]; [by left |].
    right. destruct (decide (r ≤ max_row ws)) as [Hle|Hgt].
    + replace (max_row ws `max` r) with (max_row ws) in * by lia.
      destruct Hin as [Hin | (c' & v' & Hin)]; [done |].
      unfold set_cell. simpl.
      destruct (decide ((r, c) = (max_row ws, c'))) as [Heq|Hneq].
      * exists c', v. rewrite <- Heq. apply lookup_insert_eq.
      * exists c', v'. by rewrite lookup_insert_ne.
    + replace (max_row ws `max` r) with r by lia.
      exists c, v. unfold set_cell. simpl. apply lookup_insert_eq.
Qed.

(** ** Headers *)

Section Headers.
Context {env : Environment}.

Lemma read_headers_S (ws : worksheet) (n : nat) :
  read_headers ws (S n) = header_step ws (read_headers ws n) (S n).
Proof.
  unfold read_headers. rewrite seq_S, foldl_app. simpl. done.
Qed.

(** A header found in row 1 sits in a column of the sheet, whose cell holds
    that text, up to surrounding blanks. *)
Lemma read_headers_Some (ws : worksheet) (n : nat) (h : string) (c : nat) :
  read_headers ws n !! h = Some c ->
  1 ≤ c ≤ n ∧ ∃ s, cell_value ws 1 c = VStr s ∧ PyStr.strip s = h.
Proof.
  induction n as [|n IH]; [done |].
  rewrite read_headers_S. unfold header_step.
  destruct (cell_value ws 1 (S n)) as [|s| | |] eqn:Hcell;
    try (intros [? ?]%IH; split; [lia | done]).
  destruct (PyStr.truthy (PyStr.strip s));
    [| intros [? ?]%IH; split; [lia | done]].
  rewrite lookup_insert. destruct (decide (PyStr.strip s = h)) as [<-|Hne].
  - intros [= <-]. split; [lia |]. by exists s.
  - intros [? ?]%IH. split; [lia | done].
Qed.

(** A name that is not found is the header of no column. *)
Lemma read_headers_None (ws : worksheet) (n : nat) (h : string) :
  read_headers ws n !! h = None ->
  ∀ c s, 1 ≤ c ≤ n -> cell_value ws 1 c = VStr s -> PyStr.strip s = h ->
         PyStr.truthy h = false.
Proof.
  induction n as [|n IH]; [intros _ c s ?; lia |].
  rewrite read_headers_S. unfold header_step.
  intros Hnone c s Hc Hcell Hs.
  destruct (decide (c = S n)) as [->|Hne].
  - rewrite Hcell in Hnone.
    destruct (PyStr.truthy (PyStr.strip s)) eqn:Ht; [| by rewrite <- Hs].
    rewrite <- Hs in Hnone. by rewrite lookup_insert_eq in Hnone.
  - apply (IH) with c s; [| lia | done | done].
    destruct (cell_value ws 1 (S n)) as [|s'| | |]; try done.
    destruct (PyStr.truthy (PyStr.strip s')); [| done].
    apply lookup_insert_None in Hnone. tauto.
Qed.

(** The headers found depend on row 1 only. *)
Lemma read_headers_ext (ws ws' : worksheet) (n : nat) :
  (∀ c, 1 ≤ c ≤ n -> cell_value ws 1 c = cell_value ws' 1 c) ->
  read_headers ws n = read_headers ws' n.
Proof.
  induction n as [|n IH]; [done |]. intros Hext.
  rewrite !read_headers_S. unfold header_step.
  rewrite <- Hext, IH by lia || (intros; apply Hext; lia). done.
Qed.

Lemma found_headers_Some (ws : worksheet) (h : string) (c : nat) :
  found_headers ws !! h = Some c ->
  1 ≤ c ≤ max_column ws ∧ ∃ s, cell_value ws 1 c = VStr s ∧ PyStr.strip s = h.
Proof. apply read_headers_Some. Qed.

(** [ensure_headers] never raises, leaves the world alone and writes the
    missing header cells only. *)
Lemma ensure_headers_run (ws : worksheet) (w : world) :
  ensure_headers ws [TITLE_HEADER; IMAGE_HEADER] w =
    (Ok (with_headers ws, headers_map ws), w,
     (fun ch => EvWrite (ws_title ws) 1 ch.1 (VStr ch.2)) <$> header_cells ws).
Proof.
  unfold ensure_headers, with_headers, headers_map, header_cells, found_headers.
  pose proof (max_column_pos ws) as Hpos.
  destruct (max_column ws =? 0) eqn:H0; [apply Nat.eqb_eq in H0; lia |].
  cbn [add_missing].
  destruct (read_headers ws (max_column ws) !! TITLE_HEADER) as [tc|] eqn:Ht.
  - destruct (read_headers ws (max_column ws) !! IMAGE_HEADER) as [ic|] eqn:Hi.
    + done.
    + by unfold write_cell, bind, emit, ret.
  - unfold write_cell, bind, emit, ret. cbn [fst snd app].
    rewrite lookup_insert_ne by done.
    destruct (read_headers ws (max_column ws) !! IMAGE_HEADER) as [ic|] eqn:Hi.
    + done.
    + done.
Qed.

(** The four cases of [ensure_headers]. *)
Lemma headers_cases (ws : worksheet) :
  let mc := max_column ws in
  (∃ tc ic, found_headers ws !! TITLE_HEADER = Some tc
            ∧ found_headers ws !! IMAGE_HEADER = Some ic
            ∧ header_cells ws = [])
  ∨ (∃ tc, found_headers ws !! TITLE_HEADER = Some tc
           ∧ found_headers ws !! IMAGE_HEADER = None
           ∧ header_cells ws = [(mc + 1, IMAGE_HEADER)])
  ∨ (∃ ic, found_headers ws !! TITLE_HEADER = None
           ∧ found_headers ws !! IMAGE_HEADER = Some ic
           ∧ header_cells ws = [(mc + 1, TITLE_HEADER)])
  ∨ (found_headers ws !! TITLE_HEADER = None
     ∧ found_headers ws !! IMAGE_HEADER = None
     ∧ header_cells ws =
         [(mc + 1, TITLE_HEADER); (mc + 1 + 1, IMAGE_HEADER)]).
Proof.
  unfold header_cells. cbv zeta.
  destruct (found_headers ws !! TITLE_HEADER) as [tc|];
    destruct (found_headers ws !! IMAGE_HEADER) as [ic|]; eauto 10.
Qed.

(** The columns returned for Title and Image. *)
Lemma headers_map_title (ws : worksheet) :
  headers_map ws !! TITLE_HEADER = Some (title_column ws)
  ∧ title_column ws =
      match found_headers ws !! TITLE_HEADER with
      | Some c => c
      | None => max_column ws + 1
      end.
Proof.
  unfold title_column, headers_map.
  destruct (headers_cases ws) as
    [(tc & ic & Ht & Hi & ->)|[(tc & Ht & Hi & ->)|[(ic & Ht & Hi & ->)|(Ht & Hi & ->)]]];
    rewrite Ht; cbn [foldl fst snd].
  - by rewrite lookup_total_alt, Ht.
  - by rewrite lookup_total_alt, lookup_insert_ne, Ht.
  - by rewrite lookup_total_alt, lookup_insert_eq.
  - by rewrite lookup_total_alt, lookup_insert_ne, lookup_insert_eq.
Qed.

Lemma headers_map_image (ws : worksheet) :
  headers_map ws !! IMAGE_HEADER = Some (image_column ws)
  ∧ image_column ws =
      match found_headers ws !! IMAGE_HEADER with
      | Some c => c
      | None =>
          match found_headers ws !! TITLE_HEADER with
          | Some _ => max_column ws + 1
          | None => max_column ws + 1 + 1
          end
      end.
Proof.
  unfold image_column, headers_map.
  destruct (headers_cases ws) as
    [(tc & ic & Ht & Hi & ->)|[(tc & Ht & Hi & ->)|[(ic & Ht & Hi & ->)|(Ht & Hi & ->)]]];
    rewrite Hi, ?Ht; cbn [foldl fst snd].
  - by rewrite lookup_total_alt, Hi.
  - by rewrite lookup_total_alt, lookup_insert_eq.
  - by rewrite lookup_total_alt, lookup_insert_ne, Hi.
  - by rewrite lookup_total_alt, lookup_insert_eq.
Qed.

(** Every name of the map stands for a column of its own, inside the sheet
    with its headers. *)
Lemma headers_map_lookup (ws : worksheet) (h : string) (c : nat) :
  headers_map ws !! h = Some c ->
  (found_headers ws !! h = Some c ∧ 1 ≤ c ≤ max_column ws)
  ∨ (max_column ws < c ∧ (c, h) ∈ header_cells ws).
Proof.
  unfold headers_map.
  destruct (headers_cases ws) as
    [(tc & ic & Ht & Hi & ->)|[(tc & Ht & Hi & ->)|[(ic & Ht & Hi & ->)|(Ht & Hi & ->)]]];
    cbn [foldl fst snd]; rewrite ?lookup_insert; repeat case_decide;
    first [ intros [= <-]; right; split; [lia |];
            rewrite ?elem_of_cons; subst; auto
          | intros Hf; left; split; [done |];
            by apply found_headers_Some in Hf as [? _] ].
Qed.

Lemma header_cells_beyond (ws : worksheet) (c : nat) (h : string) :
  (c, h) ∈ header_cells ws -> max_column ws < c.
Proof.
  destruct (headers_cases ws) as
    [(tc & ic & Ht & Hi & ->)|[(tc & Ht & Hi & ->)|[(ic & Ht & Hi & ->)|(Ht & Hi & ->)]]];
    rewrite ?elem_of_cons, ?elem_of_nil; intros Hin;
    repeat destruct Hin as [Hin|Hin]; try done; injection Hin as -> ->; lia.
Qed.

Lemma headers_map_inj (ws : worksheet) (h1 h2 : string) (c : nat) :
  headers_map ws !! h1 = Some c -> headers_map ws !! h2 = Some c -> h1 = h2.
Proof.
  intros [[H1 Hc1]|[Hc1 H1]]%headers_map_lookup
         [[H2 Hc2]|[Hc2 H2]]%headers_map_lookup; try lia.
  - apply found_headers_Some in H1 as (_ & s1 & Hs1 & <-).
    apply found_headers_Some in H2 as (_ & s2 & Hs2 & <-).
    congruence.
  - revert H1 H2.
    destruct (headers_cases ws) as
      [(tc & ic & Ht & Hi & ->)|[(tc & Ht & Hi & ->)|[(ic & Ht & Hi & ->)|(Ht & Hi & ->)]]];
      rewrite ?elem_of_cons, ?elem_of_nil; intros Hin1 Hin2;
      repeat destruct Hin1 as [Hin1|Hin1]; repeat destruct Hin2 as [Hin2|Hin2];
      try done; try congruence;
      injection Hin1 as ? ?; injection Hin2 as ? ?; subst; lia.
Qed.

Lemma title_image_columns_differ (ws : worksheet) :
  title_column ws ≠ image_column ws.
Proof.
  intros Heq.
  destruct (headers_map_title ws) as [Ht _].
  destruct (headers_map_image ws) as [Hi _].
  rewrite Heq in Ht. by pose proof (headers_map_inj _ _ _ _ Ht Hi).
Qed.

(** The sheet with its headers: dimensions and cells. *)
Lemma with_headers_title (ws : worksheet) :
  ws_title (with_headers ws) = ws_title ws.
Proof.
  unfold with_headers.
  destruct (headers_cases ws) as
    [(tc & ic & Ht & Hi & ->)|[(tc & Ht & Hi & ->)|[(ic & Ht & Hi & ->)|(Ht & Hi & ->)]]];
    done.
Qed.

Lemma with_headers_max_column (ws : worksheet) :
  max_column (with_headers ws) = max_column ws + length (header_cells ws).
Proof.
  unfold with_headers.
  destruct (headers_cases ws) as
    [(tc & ic & Ht & Hi & ->)|[(tc & Ht & Hi & ->)|[(ic & Ht & Hi & ->)|(Ht & Hi & ->)]]];
    cbn [foldl fst snd length]; rewrite ?max_column_set_cell; lia.
Qed.

Lemma with_headers_max_row (ws : worksheet) :
  max_row (with_headers ws) = max_row ws.
Proof.
  pose proof (max_row_pos ws).
  unfold with_headers.
  destruct (headers_cases ws) as
    [(tc & ic & Ht & Hi & ->)|[(tc & Ht & Hi & ->)|[(ic & Ht & Hi & ->)|(Ht & Hi & ->)]]];
    cbn [foldl fst snd length]; rewrite ?max_row_set_cell; lia.
Qed.

Lemma with_headers_old_cell (ws : worksheet) (r c : nat) :
  r ≠ 1 ∨ c ≤ max_column ws ->
  cell_value (with_headers ws) r c = cell_value ws r c.
Proof.
  intros Hrc. unfold with_headers.
  destruct (headers_cases ws) as
    [(tc & ic & Ht & Hi & ->)|[(tc & Ht & Hi & ->)|[(ic & Ht & Hi & ->)|(Ht & Hi & ->)]]];
    cbn [foldl fst snd]; rewrite ?cell_value_set_cell_ne; try done;
    intros [= <- <-]; lia.
Qed.

Lemma with_headers_new_cell (ws : worksheet) (c : nat) (h : string) :
  (c, h) ∈ header_cells ws ->
  cell_value (with_headers ws) 1 c = VStr h.
Proof.
  unfold with_headers.
  destruct (headers_cases ws) as
    [(tc & ic & Ht & Hi & ->)|[(tc & Ht & Hi & ->)|[(ic & Ht & Hi & ->)|(Ht & Hi & ->)]]];
    cbn [foldl fst snd]; rewrite ?elem_of_cons, ?elem_of_nil; intros Hin;
    repeat destruct Hin as [Hin|Hin]; try done; injection Hin as -> ->.
  - apply cell_value_set_cell_eq.
  - apply cell_value_set_cell_eq.
  - rewrite cell_value_set_cell_ne by (intros [= ?]; lia).
    apply cell_value_set_cell_eq.
  - apply cell_value_set_cell_eq.
Qed.

Lemma headers_map_range (ws : worksheet) (h : string) (c : nat) :
  headers_map ws !! h = Some c -> 1 ≤ c ≤ max_column (with_headers ws).
Proof.
  rewrite with_headers_max_column.
  intros [[_ Hc]|[Hc Hin]]%headers_map_lookup; [lia |].
  split; [lia |]. revert Hin.
  destruct (headers_cases ws) as
    [(tc & ic & Ht & Hi & ->)|[(tc & Ht & Hi & ->)|[(ic & Ht & Hi & ->)|(Ht & Hi & ->)]]];
    rewrite ?elem_of_cons, ?elem_of_nil; intros Hin;
    repeat destruct Hin as [Hin|Hin]; try done; injection Hin as -> ->;
    cbn [length]; lia.
Qed.


(** On a sheet whose row 1 and width are those left by [ensure_headers],
    the headers are all found. *)
Lemma found_headers_after (ws ws2 : worksheet) :
  (∀ c, cell_value ws2 1 c = cell_value (with_headers ws) 1 c) ->
  max_column ws2 = max_column (with_headers ws) ->
  found_headers ws2 = headers_map ws.
Proof.
  intros Hrow Hmc. unfold found_headers. rewrite Hmc, with_headers_max_column.
  assert (Hold : read_headers ws2 (max_column ws) = found_headers ws).
  { apply read_headers_ext. intros c Hc.
    rewrite Hrow. apply with_headers_old_cell. right. lia. }
  assert (Hnew : ∀ c h, (c, h) ∈ header_cells ws ->
                        cell_value ws2 1 c = VStr h).
  { intros c h Hin. rewrite Hrow. by apply with_headers_new_cell. }
  unfold headers_map. revert Hnew.
  destruct (headers_cases ws) as
    [(tc & ic & Ht & Hi & ->)|[(tc & Ht & Hi & ->)|[(ic & Ht & Hi & ->)|(Ht & Hi & ->)]]];
    intros Hnew; cbn [length foldl fst snd].
  - by rewrite Nat.add_0_r.
  - pose proof (Hnew _ IMAGE_HEADER ltac:(by left)) as HI.
    rewrite Nat.add_1_r in *. rewrite read_headers_S, Hold.
    unfold header_step. by rewrite HI.
  - pose proof (Hnew _ TITLE_HEADER ltac:(by left)) as HT.
    rewrite Nat.add_1_r in *. rewrite read_headers_S, Hold.
    unfold header_step. by rewrite HT.
  - pose proof (Hnew _ TITLE_HEADER ltac:(by left)) as HT.
    pose proof (Hnew _ IMAGE_HEADER ltac:(by right; left)) as HI.
    replace (max_column ws + 2) with (S (S (max_column ws))) by lia.
    rewrite !Nat.add_1_r in *. rewrite !read_headers_S, Hold.
    unfold header_step. by rewrite HT, HI.
Qed.

Lemma headers_after (ws ws2 : worksheet) :
  (∀ c, cell_value ws2 1 c = cell_value (with_headers ws) 1 c) ->
  max_column ws2 = max_column (with_headers ws) ->
  header_cells ws2 = [] ∧ with_headers ws2 = ws2
  ∧ headers_map ws2 = headers_map ws.
Proof.
  intros Hrow Hmc. pose proof (found_headers_after ws ws2 Hrow Hmc) as Hf.
  assert (Hcells : header_cells ws2 = []).
  { unfold header_cells. rewrite Hf.
    destruct (headers_map_title ws) as [-> _].
    by destruct (headers_map_image ws) as [-> _]. }
  unfold with_headers, headers_map. by rewrite Hcells, Hf.
Qed.

End Headers.

(** ** The loop over the rows *)

Section RowsLoop.
Context {env : Environment}.
Variable build_query : string -> worksheet -> nat -> gmap string nat -> string.
Variable find_image : string -> M (option string).
Variable DELAY : nat.
Variables title_col image_col : nat.
Variable cols : gmap string nat.

Local Abbreviation loop := (rows_loop build_query find_image DELAY).

(** One turn of the loop. *)
Lemma rows_loop_cons row rest ws filled skipped w :
  loop (row :: rest) title_col image_col cols ws filled skipped w =
    if negb (non_blank (cell_value ws row title_col)) then
      loop rest title_col image_col cols ws filled (skipped + 1) w
    else if non_blank (cell_value ws row image_col) then
      loop rest title_col image_col cols ws filled skipped w
    else
      let query :=
        build_query (py_str (cell_value ws row title_col)) ws row cols in
      let search := find_image query w in
      match res_of search with
      | Raised x => (Raised x, world_of search, events_of search)
      | Ok url =>
          match chosen url with
          | Some u =>
              let next :=
                loop rest title_col image_col cols
                  (set_cell ws row image_col (VStr u)) (filled + 1) skipped
                  (world_of search) in
              (res_of next, world_of next,
               events_of search
               ++ EvWrite (ws_title ws) row image_col (VStr u)
               :: EvSleep DELAY :: events_of next)
          | None =>
              let next :=
                loop rest title_col image_col cols ws filled skipped
                  (world_of search) in
              (res_of next, world_of next,
               events_of search ++ EvSleep DELAY :: events_of next)
          end
      end.
Proof.
  cbn [rows_loop].
  destruct (negb (non_blank (cell_value ws row title_col))); [done |].
  destruct (non_blank (cell_value ws row image_col)); [done |].
  cbv zeta. unfold write_cell, sleep, chosen.
  unfold bind, emit, ret, res_of, world_of, events_of.
  destruct (find_image _ w) as [[[url|x] w1] e1]; cbn [fst snd]; [| done].
  destruct url as [u|]; [destruct (PyStr.truthy u) |]; cbn [fst snd app].
  - by destruct (rows_loop _ _ _ rest _ _ _ _ _ _ w1) as [[r' w'] e'].
  - by destruct (rows_loop _ _ _ rest _ _ _ _ _ _ w1) as [[r' w'] e'].
  - by destruct (rows_loop _ _ _ rest _ _ _ _ _ _ w1) as [[r' w'] e'].
Qed.

Lemma chosen_Some url u : chosen url = Some u -> PyStr.truthy u = true.
Proof.
  destruct url as [u'|]; [| done]. simpl.
  destruct (PyStr.truthy u') eqn:Hu; [| done]. by intros [= <-].
Qed.


(** What the loop leaves: the title, and every cell but the blank cells of
    the image column in the rows visited, which may now hold a URL. *)
Lemma rows_loop_frame rows ws filled skipped w ws' filled' skipped' :
  res_of (loop rows title_col image_col cols ws filled skipped w)
    = Ok (ws', filled', skipped') ->
  ws_title ws' = ws_title ws
  ∧ ∀ r c,
      cell_value ws' r c = cell_value ws r c
      ∨ (c = image_col ∧ r ∈ rows
         ∧ non_blank (cell_value ws r image_col) = false
         ∧ ∃ u, cell_value ws' r c = VStr u ∧ PyStr.truthy u = true).
Proof.
  revert ws filled skipped w.
  induction rows as [|row rest IH]; intros ws filled skipped w.
  - intros [= <- <- <-]. split; [done |]. by left.
  - assert (Hrest : ∀ f0 s0 w0,
      res_of (loop rest title_col image_col cols ws f0 s0 w0)
        = Ok (ws', filled', skipped') ->
      ws_title ws' = ws_title ws
      ∧ ∀ r c,
          cell_value ws' r c = cell_value ws r c
          ∨ (c = image_col ∧ r ∈ row :: rest
             ∧ non_blank (cell_value ws r image_col) = false
             ∧ ∃ u, cell_value ws' r c = VStr u ∧ PyStr.truthy u = true)).
    { intros f0 s0 w0 [Ht Hc]%IH. split; [done |]. intros r c.
      destruct (Hc r c) as [?|(? & ? & ? & ?)]; [by left |].
      right. repeat split; try done. by right. }
    rewrite rows_loop_cons.
    destruct (negb (non_blank (cell_value ws row title_col)));
      [by apply Hrest |].
    destruct (non_blank (cell_value ws row image_col)) eqn:Hblank;
      [by apply Hrest |].
    cbv zeta.
    destruct (res_of (find_image _ w)) as [url|e]; [| by rewrite res_of_mk].
    destruct (chosen url) as [u|] eqn:Hu; rewrite res_of_mk;
      [| by apply Hrest].
    intros [Ht Hc]%IH. split; [done |]. intros r c.
    destruct (decide ((row, image_col) = (r, c))) as [[= <- <-]|Hne].
    + right. split; [done |]. split; [by left |]. split; [done |].
      destruct (Hc row image_col) as [Heq|(_ & _ & _ & Hu')]; [| done].
      exists u. rewrite Heq, cell_value_set_cell_eq.
      split; [done |]. by apply chosen_Some in Hu.
    + destruct (Hc r c) as [Heq|(-> & Hin & Hb & Hu')].
      * left. by rewrite Heq, cell_value_set_cell_ne.
      * right. split; [done |]. split; [by right |]. split; [| done].
        rewrite cell_value_set_cell_ne in Hb; [done |].
        intros [= <-]. done.
Qed.

End RowsLoop.

(** ** The pass over a sheet *)

Section SheetPass.
Context {env : Environment}.
Variable build_query : string -> worksheet -> nat -> gmap string nat -> string.
Variable find_image : string -> M (option string).
Variable DELAY : nat.

Lemma process_sheet_run (ws : worksheet) (w : world) :
  process_sheet build_query find_image DELAY ws w =
    let run :=
      rows_loop build_query find_image DELAY (sheet_rows ws)
        (title_column ws) (image_column ws) (headers_map ws)
        (with_headers ws) 0 0 w in
    match res_of run with
    | Ok (ws2, filled, skipped) =>
        (Ok (ws2, filled, skipped), world_of run,
         header_events ws ++ events_of run
         ++ [EvPrint (sheet_report ws2 filled skipped)])
    | Raised x => (Raised x, world_of run, header_events ws ++ events_of run)
    end.
Proof.
  unfold process_sheet. rewrite bind_run, ensure_headers_run.
  cbv zeta. fold (header_events ws). fold (title_column ws).
  fold (image_column ws). fold (sheet_rows ws).
  rewrite bind_run.
  destruct (rows_loop _ _ _ _ _ _ _ _ _ _ w) as [[[[[ws2 f] k]|x] w1] e1];
    rewrite ?res_of_mk, ?world_of_mk, ?events_of_mk; [| done].
  unfold print, emit, bind, ret, res_of, world_of, events_of. cbn [fst snd].
  by rewrite app_nil_r.
Qed.

End SheetPass.

(** ** The providers *)

Section Providers.
Context {env : Environment}.

Lemma first_allowed_live_filter (allowed candidates : list string) (w : world) :
  Bing.first_allowed_live allowed candidates w =
    first_live (List.filter (Bing.domain_is_allowed allowed) candidates) w.
Proof.
  revert w. induction candidates as [|c rest IH]; intros w; [done |].
  cbn [Bing.first_allowed_live List.filter].
  destruct (Bing.domain_is_allowed allowed c); cbn [negb]; [| apply IH].
  cbn [first_live]. rewrite !bind_run, head_ok_run.
  destruct (is_live _); [done |]. by rewrite IH.
Qed.

Lemma first_live_hit_candidates (hits : list hit) (w : world) :
  Pixabay.first_live_hit hits w = first_live (omap hit_candidate hits) w.
Proof.
  revert w. induction hits as [|h rest IH]; intros w; [done |].
  cbn [Pixabay.first_live_hit omap list_omap].
  unfold hit_candidate at 1, chosen.
  destruct (py_or _ _) as [c|]; [| apply IH].
  destruct (PyStr.truthy c); [| apply IH].
  cbn [first_live]. rewrite !bind_run, head_ok_run.
  destruct (is_live _); [done |]. by rewrite IH.
Qed.

Lemma first_live_cons url rest w :
  first_live (url :: rest) w =
    let o := (requests_head url 10 w).1 in
    let w1 := (requests_head url 10 w).2 in
    if is_live o then (Ok (Some url), w1, [EvHead url 10 o])
    else (res_of (first_live rest w1), world_of (first_live rest w1),
          EvHead url 10 o :: events_of (first_live rest w1)).
Proof.
  cbn [first_live]. rewrite bind_run, head_ok_run. cbv zeta.
  by destruct (is_live _).
Qed.

Lemma first_live_quiet candidates w :
  writes (events_of (first_live candidates w)) = [].
Proof.
  destruct (first_live_selection candidates w) as (found & _ & Hheads & _).
  by destruct Hheads as (_ & _ & Hw & _).
Qed.

Lemma first_live_deterministic candidates w w' :
  stateless ->
  res_of (first_live candidates w) = res_of (first_live candidates w').
Proof.
  intros [_ Hhead]. revert w w'.
  induction candidates as [|c rest IH]; intros w w'; [done |].
  rewrite !first_live_cons. cbv zeta. rewrite (Hhead c 10 w w').
  destruct (is_live _); [done |]. rewrite !res_of_mk. apply IH.
Qed.

Lemma first_live_found candidates w u :
  res_of (first_live candidates w) = Ok (Some u) ->
  ∃ w', is_live (requests_head u 10 w').1 = true.
Proof.
  revert w. induction candidates as [|c rest IH]; intros w; [done |].
  rewrite first_live_cons. cbv zeta.
  destruct (is_live _) eqn:Hlive; rewrite res_of_mk.
  - intros [= <-]. by exists w.
  - apply IH.
Qed.

(** [bing_first_live_image]. *)
Lemma bing_pages_quiet allowed query pages w :
  writes (events_of (Bing.bing_pages allowed query pages w)) = [].
Proof.
  by destruct (bing_pages_selection allowed query pages w)
    as (found & k & _ & _ & Hw & _).
Qed.

Lemma bing_pages_deterministic allowed query pages w w' :
  stateless ->
  res_of (Bing.bing_pages allowed query pages w) =
    res_of (Bing.bing_pages allowed query pages w').
Proof.
  intros Hst. pose proof Hst as [Hget _]. revert w w'.
  induction pages as [|first rest IH]; intros w w'; [done |].
  rewrite !bing_pages_cons. cbv zeta.
  rewrite (Hget (BingSearch query first) w w').
  destruct (requests_get (BingSearch query first) w').1 as [r|e];
    [| rewrite !res_of_mk; apply IH].
  destruct (passes r); [| rewrite !res_of_mk; apply IH].
  rewrite !first_allowed_live_filter.
  rewrite (first_live_deterministic _ _ (requests_get (BingSearch query first) w').2)
    by done.
  destruct (res_of (first_live _ _)) as [[u|]|x]; rewrite !res_of_mk;
    [done | apply IH | done].
Qed.

Lemma bing_pages_found allowed query pages w u :
  res_of (Bing.bing_pages allowed query pages w) = Ok (Some u) ->
  ∃ w', is_live (requests_head u 10 w').1 = true.
Proof.
  revert w. induction pages as [|first rest IH]; intros w; [done |].
  rewrite bing_pages_cons. cbv zeta.
  destruct (requests_get (BingSearch query first) w).1 as [r|e];
    [| rewrite !res_of_mk; apply IH].
  destruct (passes r); [| rewrite !res_of_mk; apply IH].
  rewrite !first_allowed_live_filter.
  destruct (res_of (first_live _ _)) as [[u'|]|x] eqn:Hres; rewrite !res_of_mk.
  - intros [= <-]. by apply first_live_found in Hres.
  - apply IH.
  - done.
Qed.

(** [find_image] of the Google script. *)
Lemma google_find_run key cx query w :
  Google.find_image key cx query w =
    let search :=
      Google.google_image_search key cx query Google.RESULTS_PER_QUERY w in
    match res_of search with
    | Ok candidates =>
        let pick := first_live candidates (world_of search) in
        (res_of pick, world_of pick, events_of search ++ events_of pick)
    | Raised x => (Raised x, world_of search, events_of search)
    end.
Proof.
  unfold Google.find_image. rewrite bind_run. cbv zeta.
  by destruct (Google.google_image_search _ _ _ _ w) as [[[c|x] w1] e1].
Qed.

Lemma google_search_quiet key cx query num w :
  writes (events_of (Google.google_image_search key cx query num w)) = [].
Proof.
  rewrite google_image_search_run. cbv zeta.
  destruct (requests_get _ w).1 as [r1|e1]; [| done].
  destruct (status_code r1 =? 429)%Z.
  - destruct (requests_get _ _).1 as [r2|e2]; [| done]. by destruct (passes r2).
  - by destruct (passes r1).
Qed.

Lemma google_search_deterministic key cx query num w w' :
  stateless ->
  res_of (Google.google_image_search key cx query num w) =
    res_of (Google.google_image_search key cx query num w').
Proof.
  intros [Hget _]. rewrite !google_image_search_run. cbv zeta.
  set (params := GoogleSearch key cx query (Z.min (Z.max 1 num) 10)).
  rewrite (Hget params w w').
  destruct (requests_get params w').1 as [r1|e1]; [| done].
  destruct (status_code r1 =? 429)%Z.
  - rewrite (Hget params (requests_get params w).2 (requests_get params w').2).
    destruct (requests_get params _).1 as [r2|e2]; [| done].
    by destruct (passes r2).
  - by destruct (passes r1).
Qed.

Lemma google_find_quiet key cx query w :
  writes (events_of (Google.find_image key cx query w)) = [].
Proof.
  rewrite google_find_run. cbv zeta.
  pose proof (google_search_quiet key cx query Google.RESULTS_PER_QUERY w) as Hq.
  destruct (res_of (Google.google_image_search _ _ _ _ w)) as [c|x];
    rewrite events_of_mk; [| done].
  by rewrite writes_app, Hq, first_live_quiet.
Qed.

Lemma google_find_deterministic key cx query w w' :
  stateless ->
  res_of (Google.find_image key cx query w) =
    res_of (Google.find_image key cx query w').
Proof.
  intros Hst. rewrite !google_find_run. cbv zeta.
  rewrite (google_search_deterministic key cx query _ w w') by done.
  destruct (res_of (Google.google_image_search _ _ _ _ w')) as [c|x];
    rewrite !res_of_mk; [| done].
  by apply first_live_deterministic.
Qed.

Lemma google_find_found key cx query w u :
  res_of (Google.find_image key cx query w) = Ok (Some u) ->
  ∃ w', is_live (requests_head u 10 w').1 = true.
Proof.
  rewrite google_find_run. cbv zeta.
  destruct (res_of (Google.google_image_search _ _ _ _ w)) as [c|x];
    rewrite !res_of_mk; [| done].
  apply first_live_found.
Qed.

(** [pixabay_first_image_url]. *)
Lemma pixabay_no_key key query w :
  PyStr.truthy key = false ->
  Pixabay.pixabay_first_image_url key query w =
    (Raised (RuntimeError Pixabay.key_not_set), w, []).
Proof.
  intros Hkey. unfold Pixabay.pixabay_first_image_url. by rewrite Hkey.
Qed.

Lemma pixabay_quiet key query w :
  writes (events_of (Pixabay.pixabay_first_image_url key query w)) = [].
Proof.
  destruct (PyStr.truthy key) eqn:Hkey; [| by rewrite pixabay_no_key].
  rewrite pixabay_run by done. cbv zeta.
  destruct (requests_get _ w).1 as [r|e]; [| done].
  destruct (passes r); [| done].
  destruct (pixabay_hits (text r)) as [hits|]; [| done].
  rewrite events_of_mk, first_live_hit_candidates.
  change (writes (EvGet ?q ?o :: ?l)) with (writes l).
  apply first_live_quiet.
Qed.

Lemma pixabay_deterministic key query w w' :
  stateless ->
  res_of (Pixabay.pixabay_first_image_url key query w) =
    res_of (Pixabay.pixabay_first_image_url key query w').
Proof.
  intros Hst. pose proof Hst as [Hget _].
  destruct (PyStr.truthy key) eqn:Hkey; [| by rewrite !pixabay_no_key].
  rewrite !pixabay_run by done. cbv zeta. rewrite (Hget _ w w').
  destruct (requests_get _ w').1 as [r|e]; [| done].
  destruct (passes r); [| done].
  destruct (pixabay_hits (text r)) as [hits|]; [| done].
  rewrite !res_of_mk, !first_live_hit_candidates.
  by apply first_live_deterministic.
Qed.

Lemma pixabay_found key query w u :
  res_of (Pixabay.pixabay_first_image_url key query w) = Ok (Some u) ->
  ∃ w', is_live (requests_head u 10 w').1 = true.
Proof.
  destruct (PyStr.truthy key) eqn:Hkey; [| by rewrite !pixabay_no_key].
  rewrite !pixabay_run by done. cbv zeta.
  destruct (requests_get _ w).1 as [r|e]; [| done].
  destruct (passes r); [| done].
  destruct (pixabay_hits (text r)) as [hits|]; [| done].
  rewrite !res_of_mk, !first_live_hit_candidates.
  apply first_live_found.
Qed.

(** The three scripts alike: a search writes no cell; with a stateless
    network its result depends on the query only; what it finds is live. *)
Lemma script_find_quiet (s : script) query w :
  writes (events_of (script_find s query w)) = [].
Proof.
  destruct s as [allowed|key cx|key]; simpl.
  - apply bing_pages_quiet.
  - apply google_find_quiet.
  - apply pixabay_quiet.
Qed.

Lemma script_find_deterministic (s : script) query w w' :
  stateless ->
  res_of (script_find s query w) = res_of (script_find s query w').
Proof.
  intros Hst. destruct s as [allowed|key cx|key]; simpl.
  - by apply bing_pages_deterministic.
  - by apply google_find_deterministic.
  - by apply pixabay_deterministic.
Qed.

Lemma script_find_found (s : script) query w u :
  res_of (script_find s query w) = Ok (Some u) ->
  ∃ w', is_live (requests_head u 10 w').1 = true.
Proof.
  destruct s as [allowed|key cx|key]; simpl.
  - apply bing_pages_found.
  - apply google_find_found.
  - apply pixabay_found.
Qed.

End Providers.

(** ** The pass over a workbook *)

Section WorkbookPass.
Context {env : Environment}.
Variable build_query : string -> worksheet -> nat -> gmap string nat -> string.
Variable find_image : string -> M (option string).
Variable DELAY : nat.

Lemma sheets_loop_cons ws rest tf ts w :
  sheets_loop build_query find_image DELAY (ws :: rest) tf ts w =
    let one := process_sheet build_query find_image DELAY ws w in
    match res_of one with
    | Ok (ws', filled, skipped) =>
        let more :=
          sheets_loop build_query find_image DELAY rest
            (tf + filled) (ts + skipped) (world_of one) in
        match res_of more with
        | Ok (rest', tf', ts') =>
            (Ok (ws' :: rest', tf', ts'), world_of more,
             events_of one ++ events_of more)
        | Raised x => (Raised x, world_of more, events_of one ++ events_of more)
        end
    | Raised x => (Raised x, world_of one, events_of one)
    end.
Proof.
  cbn [sheets_loop]. unfold bind, ret, res_of, world_of, events_of.
  destruct (process_sheet _ _ _ ws w) as [[[[[ws' f] k]|x] w1] e1];
    cbn [fst snd]; [| done].
  destruct (sheets_loop _ _ _ rest _ _ w1) as [[[[[rest' tf'] ts']|x] w2] e2];
    cbn [fst snd]; [| done].
  by rewrite app_nil_r.
Qed.

(** Every sheet of the result is the result of the pass over the sheet at
    the same place. *)
Lemma sheets_loop_sheets wb tf ts w wb' tf' ts' :
  res_of (sheets_loop build_query find_image DELAY wb tf ts w)
    = Ok (wb', tf', ts') ->
  Forall2 (fun ws ws' =>
             ∃ w0 filled skipped,
               res_of (process_sheet build_query find_image DELAY ws w0)
                 = Ok (ws', filled, skipped)) wb wb'.
Proof.
  revert tf ts w wb' tf' ts'.
  induction wb as [|ws rest IH]; intros tf ts w wb' tf' ts'.
  - intros [= <- <- <-]. constructor.
  - rewrite sheets_loop_cons. cbv zeta.
    destruct (res_of (process_sheet _ _ _ ws w)) as [[[ws1 f] k]|x] eqn:Hone;
      [| by rewrite res_of_mk].
    destruct (res_of (sheets_loop _ _ _ rest _ _ _)) as [[[rest1 tf1] ts1]|x]
      eqn:Hmore; rewrite res_of_mk; [| done].
    intros [= <- <- <-]. constructor; [eauto | by eapply IH].
Qed.

End WorkbookPass.

Section SheetFacts.
Context {env : Environment}.

Lemma elem_of_sheet_rows (ws : worksheet) (r : nat) :
  r ∈ sheet_rows ws ↔ 2 ≤ r ≤ max_row ws.
Proof.
  unfold sheet_rows. rewrite with_headers_max_row, elem_of_seq.
  pose proof (max_row_pos ws). lia.
Qed.

Lemma writes_header_events (ws : worksheet) :
  writes (header_events ws) =
    (fun ch => (ws_title ws, 1, ch.1, VStr ch.2)) <$> header_cells ws.
Proof.
  unfold header_events. induction (header_cells ws) as [|ch l IH]; [done |].
  rewrite !fmap_cons.
  change (writes (EvWrite ?t ?r ?c ?v :: ?evs)) with ((t, r, c, v) :: writes evs).
  by rewrite IH.
Qed.


(** The sheet a completed pass leaves. *)
Lemma script_sheet_result (s : script) (ws : worksheet) (w : world) ws' f k :
  res_of (script_sheet s ws w) = Ok (ws', f, k) ->
  ws_title ws' = ws_title ws
  ∧ ∀ r c,
      cell_value ws' r c = cell_value (with_headers ws) r c
      ∨ (c = image_column ws ∧ 2 ≤ r ≤ max_row ws
         ∧ non_blank (cell_value ws r (image_column ws)) = false
         ∧ ∃ u, cell_value ws' r c = VStr u ∧ PyStr.truthy u = true).
Proof.
  unfold script_sheet. rewrite process_sheet_run. cbv zeta.
  destruct (res_of (rows_loop _ _ _ _ _ _ _ _ _ _ w)) as [[[ws2 f2] k2]|x]
    eqn:Hrun; rewrite res_of_mk; [| done].
  intros [= <- <- <-].
  apply rows_loop_frame in Hrun as [Ht Hc].
  split; [by rewrite Ht, with_headers_title |].
  intros r c. destruct (Hc r c) as [Heq|(-> & Hin & Hb & Hu)]; [by left |].
  right. apply elem_of_sheet_rows in Hin.
  rewrite with_headers_old_cell in Hb by (left; lia). done.
Qed.

End SheetFacts.

(** ** Header creation (C9) and the no-overwrite invariant (C1) *)






(** ** A second pass *)

Section SecondPass.
Context {env : Environment}.
Variable build_query : string -> worksheet -> nat -> gmap string nat -> string.
Variable find_image : string -> M (option string).
Variable DELAY : nat.
Variables title_col image_col : nat.
Variable cols : gmap string nat.

Local Abbreviation loop := (rows_loop build_query find_image DELAY).

Lemma rows_loop_untouched rows ws filled skipped w ws' filled' skipped' r c :
  res_of (loop rows title_col image_col cols ws filled skipped w)
    = Ok (ws', filled', skipped') ->
  c ≠ image_col ∨ r ∉ rows ->
  cell_value ws' r c = cell_value ws r c.
Proof.
  intros [_ Hc]%rows_loop_frame Hrc.
  destruct (Hc r c) as [Heq|(-> & Hin & _)]; [done | tauto].
Qed.

(** The loop keeps the dimensions of a sheet that holds its rows and its
    image column. *)
Lemma rows_loop_dims rows ws filled skipped w ws' filled' skipped' :
  res_of (loop rows title_col image_col cols ws filled skipped w)
    = Ok (ws', filled', skipped') ->
  (∀ r, r ∈ rows -> r ≤ max_row ws) ->
  image_col ≤ max_column ws ->
  max_row ws' = max_row ws ∧ max_column ws' = max_column ws.
Proof.
  revert ws filled skipped w.
  induction rows as [|row rest IH]; intros ws filled skipped w.
  - by intros [= <- <- <-].
  - rewrite rows_loop_cons. intros Hres Hrows Hcol.
    assert (Hrest : ∀ r, r ∈ rest -> r ≤ max_row ws)
      by (intros r Hr; apply Hrows; by right).
    destruct (negb (non_blank (cell_value ws row title_col)));
      [by eapply IH |].
    destruct (non_blank (cell_value ws row image_col)); [by eapply IH |].
    cbv zeta in Hres.
    destruct (res_of (find_image _ w)) as [url|e];
      [| by rewrite res_of_mk in Hres].
    destruct (chosen url) as [u|]; rewrite res_of_mk in Hres;
      [| by eapply IH].
    assert (Hrow : row ≤ max_row ws) by (apply Hrows; by left).
    apply IH in Hres as [-> ->].
    + rewrite max_row_set_cell, max_column_set_cell. lia.
    + intros r Hr. rewrite max_row_set_cell. apply Hrest in Hr. lia.
    + rewrite max_column_set_cell. lia.
Qed.

Hypothesis columns_differ : title_col ≠ image_col.
Hypothesis same_answer :
  ∀ q w w', res_of (find_image q w) = res_of (find_image q w').
Hypothesis quiet : ∀ q w, writes (events_of (find_image q w)) = [].
Hypothesis found_not_blank :
  ∀ q w u, res_of (find_image q w) = Ok (Some u) ->
           PyStr.truthy (PyStr.strip u) = true.
Hypothesis query_local :
  ∀ t ws ws' r,
    (∀ c, c ≠ image_col -> cell_value ws r c = cell_value ws' r c) ->
    build_query t ws r cols = build_query t ws' r cols.

(** Run again over the sheet that a completed pass left, the loop finds
    every image cell either filled or as hopeless as before: it writes
    nothing, fills nothing and skips the same rows. *)
Lemma rows_second_pass rows a filled skipped w a' filled' skipped' :
  NoDup rows ->
  res_of (loop rows title_col image_col cols a filled skipped w)
    = Ok (a', filled', skipped') ->
  ∃ d, skipped' = skipped + d
    ∧ ∀ b g t wb,
        (∀ r c, r ∈ rows -> cell_value b r c = cell_value a' r c) ->
        ∃ w2 evs,
          loop rows title_col image_col cols b g t wb = (Ok (b, g, t + d), w2, evs)
          ∧ writes evs = [].
Proof.
  revert a filled skipped w.
  induction rows as [|row rest IH]; intros a filled skipped w Hnd.
  - intros [= <- <- <-]. exists 0. split; [lia |].
    intros b g t wb _. exists wb, []. by rewrite Nat.add_0_r.
  - apply NoDup_cons in Hnd as [Hrow Hnd].
    rewrite rows_loop_cons.
    destruct (non_blank (cell_value a row title_col)) eqn:Htitle; cbn [negb].
    2:{ intros Hres. pose proof Hres as (d & -> & Hsecond)%IH; [| done].
        exists (1 + d). split; [lia |]. intros b g t wb Hb.
        destruct (Hsecond b g (t + 1) wb) as (w2 & evs & Hrun & Hw).
        { intros r c Hr. apply Hb. by right. }
        exists w2, evs. split; [| done].
        rewrite rows_loop_cons, Hb by (by left).
        rewrite (rows_loop_untouched _ _ _ _ _ _ _ _ _ _ Hres)
          by (left; done).
        rewrite Htitle. cbn [negb]. rewrite Hrun.
        by replace (t + (1 + d)) with (t + 1 + d) by lia. }
    destruct (non_blank (cell_value a row image_col)) eqn:Himage.
    { intros Hres. pose proof Hres as (d & -> & Hsecond)%IH; [| done].
      exists d. split; [done |]. intros b g t wb Hb.
      destruct (Hsecond b g t wb) as (w2 & evs & Hrun & Hw).
      { intros r c Hr. apply Hb. by right. }
      exists w2, evs. split; [| done].
      rewrite rows_loop_cons, !Hb by (by left).
      rewrite !(rows_loop_untouched _ _ _ _ _ _ _ _ _ _ Hres)
        by (right; done).
      by rewrite Htitle, Himage. }
    cbv zeta.
    set (query := build_query (py_str (cell_value a row title_col)) a row cols).
    destruct (res_of (find_image query w)) as [url|e] eqn:Hfind;
      [| by rewrite res_of_mk].
    destruct (chosen url) as [u|] eqn:Hchosen; rewrite res_of_mk.
    + intros Hres. pose proof Hres as (d & -> & Hsecond)%IH; [| done].
      exists d. split; [done |]. intros b g t wb Hb.
      destruct (Hsecond b g t wb) as (w2 & evs & Hrun & Hw).
      { intros r c Hr. apply Hb. by right. }
      exists w2, evs. split; [| done].
      rewrite rows_loop_cons, !Hb by (by left).
      rewrite !(rows_loop_untouched _ _ _ _ _ _ _ _ _ _ Hres)
        by (right; done).
      rewrite cell_value_set_cell_eq.
      rewrite cell_value_set_cell_ne by (intros [= ?]; done).
      rewrite Htitle. cbn [negb].
      assert (Hu : url = Some u).
      { unfold chosen in Hchosen. destruct url as [u'|]; [| done].
        destruct (PyStr.truthy u'); by inversion Hchosen. }
      subst url. apply found_not_blank in Hfind.
      assert (Hnb : non_blank (VStr u) = true).
      { unfold non_blank. cbn [py_bool py_str]. rewrite Hfind.
        by apply chosen_Some in Hchosen as ->. }
      by rewrite Hnb.
    + intros Hres. pose proof Hres as (d & -> & Hsecond)%IH; [| done].
      exists d. split; [done |]. intros b g t wb Hb.
      assert (Hrowb : ∀ c, cell_value b row c = cell_value a row c).
      { intros c. rewrite Hb by (by left).
        rewrite (rows_loop_untouched _ _ _ _ _ _ _ _ _ _ Hres)
          by (right; done). done. }
      rewrite rows_loop_cons, !Hrowb, Htitle, Himage. cbn [negb]. cbv zeta.
      rewrite (query_local _ b a row) by (intros c _; apply Hrowb).
      fold query. rewrite (same_answer query wb w), Hfind, Hchosen.
      destruct (Hsecond b g t (world_of (find_image query wb)))
        as (w2 & evs & Hrun & Hw).
      { intros r c Hr. apply Hb. by right. }
      rewrite Hrun, res_of_mk, world_of_mk, events_of_mk.
      eexists _, _. split; [reflexivity |].
      rewrite writes_app, quiet. done.
Qed.

End SecondPass.

Section SecondRun.
Context {env : Environment}.

(** The query of a row does not read the image column. *)
Lemma optional_bits_local (ws0 : worksheet) ws ws' r :
  (∀ c, c ≠ image_column ws0 -> cell_value ws r c = cell_value ws' r c) ->
  optional_bits ws r (headers_map ws0) = optional_bits ws' r (headers_map ws0).
Proof.
  intros Hrow.
  assert (Hcol : ∀ name idx,
    name ≠ IMAGE_HEADER -> headers_map ws0 !! name = Some idx ->
    cell_value ws r idx = cell_value ws' r idx).
  { intros name idx Hname Hidx. apply Hrow. intros ->.
    destruct (headers_map_image ws0) as [Hi _].
    by pose proof (headers_map_inj _ _ _ _ Hidx Hi). }
  unfold optional_bits, OPTIONAL_QUERY_COLUMNS. cbn [omap list_omap].
  destruct (headers_map ws0 !! "Brand") as [b|] eqn:Hb;
    destruct (headers_map ws0 !! "Region") as [g|] eqn:Hg;
    rewrite ?(Hcol "Brand" b), ?(Hcol "Region" g) by done; done.
Qed.

Lemma script_query_local (s : script) (ws0 : worksheet) t ws ws' r :
  (∀ c, c ≠ image_column ws0 -> cell_value ws r c = cell_value ws' r c) ->
  script_query s t ws r (headers_map ws0) =
    script_query s t ws' r (headers_map ws0).
Proof.
  intros Hrow%optional_bits_local.
  destruct s; simpl;
    unfold Bing.build_query, Google.build_query, Pixabay.build_query;
    by rewrite Hrow.
Qed.

Lemma script_found_not_blank (s : script) q w u :
  blank_urls_dead ->
  res_of (script_find s q w) = Ok (Some u) ->
  PyStr.truthy (PyStr.strip u) = true.
Proof.
  intros Hblank [w' Hlive]%script_find_found.
  destruct (PyStr.truthy (PyStr.strip u)) eqn:Hu; [done |].
  rewrite (Hblank u 10 w' Hu) in Hlive. done.
Qed.

(** The pass over the sheet that a completed pass left. *)
Lemma sheet_second_pass (s : script) ws w ws2 filled skipped :
  stateless -> blank_urls_dead ->
  res_of (script_sheet s ws w) = Ok (ws2, filled, skipped) ->
  ∀ w', ∃ w2 evs,
    script_sheet s ws2 w' = (Ok (ws2, 0, skipped), w2, evs)
    ∧ writes evs = [].
Proof.
  intros Hst Hblank. unfold script_sheet. rewrite process_sheet_run. cbv zeta.
  destruct (res_of (rows_loop _ _ _ _ _ _ _ _ _ _ w)) as [[[ws2' f2] k2]|x]
    eqn:Hrun; rewrite res_of_mk; [| done].
  intros [= -> -> ->] w'.
  destruct (headers_map_image ws) as [Hic _].
  assert (Hrow1 : ∀ c, cell_value ws2 1 c = cell_value (with_headers ws) 1 c).
  { intros c. apply rows_loop_frame in Hrun as [_ Hc].
    destruct (Hc 1 c) as [Heq|(_ & Hin & _)]; [done |].
    apply elem_of_sheet_rows in Hin. lia. }
  assert (Hdims : max_row ws2 = max_row (with_headers ws)
                  ∧ max_column ws2 = max_column (with_headers ws)).
  { eapply rows_loop_dims; [exact Hrun | |].
    - intros r Hr%elem_of_sheet_rows. rewrite with_headers_max_row. lia.
    - apply headers_map_range in Hic. lia. }
  destruct Hdims as [Hmr Hmc].
  destruct (headers_after ws ws2 Hrow1 Hmc) as (Hcells & Hwith & Hmap).
  assert (Hrows : sheet_rows ws2 = sheet_rows ws).
  { unfold sheet_rows. by rewrite Hwith, Hmr. }
  rewrite process_sheet_run. cbv zeta.
  unfold header_events, title_column, image_column.
  rewrite Hcells, Hwith, Hmap, Hrows.
  fold (title_column ws). fold (image_column ws).
  destruct (rows_second_pass (script_query s) (script_find s) (script_delay s)
              (title_column ws) (image_column ws) (headers_map ws))
    with (rows := sheet_rows ws) (a := with_headers ws) (filled := 0)
         (skipped := 0) (w := w) (a' := ws2) (filled' := filled)
         (skipped' := skipped)
    as (d & -> & Hsecond).
  - apply title_image_columns_differ.
  - intros q w1 w1'. by apply script_find_deterministic.
  - apply script_find_quiet.
  - intros q w1 u. by apply script_found_not_blank.
  - intros t a b r. apply script_query_local.
  - apply NoDup_seq.
  - exact Hrun.
  - destruct (Hsecond ws2 0 0 w') as (w2 & evs & Hloop & Hw); [done |].
    rewrite Hloop, res_of_mk, world_of_mk, events_of_mk.
    eexists _, _. split; [reflexivity |].
    cbn [fmap list_fmap app]. rewrite writes_app, Hw. done.
Qed.

(** The pass over the workbook that a completed pass left. *)
Lemma workbook_second_pass (s : script) wb tf ts w wb1 tf1 ts1 :
  stateless -> blank_urls_dead ->
  res_of (sheets_loop (script_query s) (script_find s) (script_delay s)
            wb tf ts w) = Ok (wb1, tf1, ts1) ->
  ∃ d, ts1 = ts + d
    ∧ ∀ tf' ts' w', ∃ w2 evs,
        sheets_loop (script_query s) (script_find s) (script_delay s)
          wb1 tf' ts' w' = (Ok (wb1, tf', ts' + d), w2, evs)
        ∧ writes evs = [].
Proof.
  intros Hst Hblank. revert tf ts w wb1 tf1 ts1.
  induction wb as [|ws rest IH]; intros tf ts w wb1 tf1 ts1.
  - intros [= <- <- <-]. exists 0. split; [lia |].
    intros tf' ts' w'. exists w', []. by rewrite Nat.add_0_r.
  - rewrite sheets_loop_cons. cbv zeta.
    destruct (res_of (process_sheet _ _ _ ws w)) as [[[ws1 f] k]|x] eqn:Hone;
      [| by rewrite res_of_mk].
    destruct (res_of (sheets_loop _ _ _ rest _ _ _)) as [[[rest1 tf2] ts2]|x]
      eqn:Hmore; rewrite res_of_mk; [| done].
    intros [= <- <- <-].
    apply IH in Hmore as (d & -> & Hrest).
    exists (k + d). split; [lia |]. intros tf' ts' w'.
    destruct (sheet_second_pass s ws w ws1 f k Hst Hblank Hone w')
      as (w2 & evs & Hsheet & Hw).
    unfold script_sheet in Hsheet.
    destruct (Hrest (tf' + 0) (ts' + k) w2) as (w3 & evs' & Hloop & Hw').
    rewrite sheets_loop_cons. cbv zeta.
    rewrite Hsheet, res_of_mk, world_of_mk, events_of_mk.
    rewrite Hloop, res_of_mk, world_of_mk, events_of_mk.
    eexists _, _. split.
    + rewrite Nat.add_0_r. by replace (ts' + (k + d)) with (ts' + k + d) by lia.
    + by rewrite writes_app, Hw, Hw'.
Qed.

End SecondRun.

(** ** Saving *)

Section Saving.
Context {env : Environment}.

Lemma saves_app evs1 evs2 : saves (evs1 ++ evs2) = saves evs1 ++ saves evs2.
Proof. apply omap_app. Qed.

Lemma first_live_no_save candidates w :
  saves (events_of (first_live candidates w)) = [].
Proof.
  revert w. induction candidates as [|c rest IH]; intros w; [done |].
  rewrite first_live_cons. cbv zeta.
  destruct (is_live _); rewrite events_of_mk; [done |]. apply IH.
Qed.

Lemma bing_pages_no_save allowed query pages w :
  saves (events_of (Bing.bing_pages allowed query pages w)) = [].
Proof.
  revert w. induction pages as [|first rest IH]; intros w; [done |].
  rewrite bing_pages_cons. cbv zeta.
  destruct (requests_get (BingSearch query first) w).1 as [r|e];
    [| rewrite events_of_mk; apply IH].
  destruct (passes r); [| rewrite events_of_mk; apply IH].
  rewrite first_allowed_live_filter.
  pose proof (first_live_no_save
    (List.filter (Bing.domain_is_allowed allowed)
       (Bing.parse_bing_image_results (text r)))
    (requests_get (BingSearch query first) w).2) as Hin.
  destruct (res_of (first_live _ _)) as [[u|]|x]; rewrite events_of_mk;
    change (saves (EvGet ?q ?o :: ?l)) with (saves l); try done.
  rewrite saves_app, Hin. apply IH.
Qed.

Lemma google_find_no_save key cx query w :
  saves (events_of (Google.find_image key cx query w)) = [].
Proof.
  rewrite google_find_run. cbv zeta.
  assert (Hs : saves (events_of (Google.google_image_search key cx query
                                   Google.RESULTS_PER_QUERY w)) = []).
  { rewrite google_image_search_run. cbv zeta.
    destruct (requests_get _ w).1 as [r1|e1]; [| done].
    destruct (status_code r1 =? 429)%Z.
    - destruct (requests_get _ _).1 as [r2|e2]; [| done]. by destruct (passes r2).
    - by destruct (passes r1). }
  destruct (res_of (Google.google_image_search _ _ _ _ w)) as [c|x];
    rewrite events_of_mk; [| done].
  by rewrite saves_app, Hs, first_live_no_save.
Qed.

Lemma pixabay_no_save key query w :
  saves (events_of (Pixabay.pixabay_first_image_url key query w)) = [].
Proof.
  destruct (PyStr.truthy key) eqn:Hkey; [| by rewrite pixabay_no_key].
  rewrite pixabay_run by done. cbv zeta.
  destruct (requests_get _ w).1 as [r|e]; [| done].
  destruct (passes r); [| done].
  destruct (pixabay_hits (text r)) as [hits|]; [| done].
  rewrite events_of_mk, first_live_hit_candidates.
  change (saves (EvGet ?q ?o :: ?l)) with (saves l).
  apply first_live_no_save.
Qed.

Lemma script_find_no_save (s : script) query w :
  saves (events_of (script_find s query w)) = [].
Proof.
  destruct s as [allowed|key cx|key]; simpl.
  - apply bing_pages_no_save.
  - apply google_find_no_save.
  - apply pixabay_no_save.
Qed.


End Saving.

Section PassFacts.
Context {env : Environment}.
Variable build_query : string -> worksheet -> nat -> gmap string nat -> string.
Variable find_image : string -> M (option string).
Variable DELAY : nat.

(** From [wb = load_workbook(...)] on: the pass, then the save and the
    report, unless the pass raised. *)
Lemma fill_workbook_run out wb w :
  fill_workbook build_query find_image DELAY out wb w =
    let pass := sheets_loop build_query find_image DELAY wb 0 0 w in
    match res_of pass with
    | Ok (wb', tf, ts) =>
        (Ok tt, world_of pass,
         events_of pass ++ EvSave wb' :: final_report out tf ts)
    | Raised x => (Raised x, world_of pass, events_of pass)
    end.
Proof.
  unfold fill_workbook. rewrite bind_run. cbv zeta.
  destruct (sheets_loop _ _ _ wb 0 0 w) as [[[[[wb' tf] ts]|x] w1] e1];
    rewrite ?res_of_mk, ?world_of_mk, ?events_of_mk; [| done].
  unfold print, emit, bind, res_of, world_of, events_of. by cbn.
Qed.

Hypothesis no_save : ∀ q w, saves (events_of (find_image q w)) = [].

Lemma rows_loop_no_save rows tc ic cols ws filled skipped w :
  saves (events_of
           (rows_loop build_query find_image DELAY rows tc ic cols ws
              filled skipped w)) = [].
Proof.
  revert ws filled skipped w.
  induction rows as [|row rest IH]; intros ws filled skipped w; [done |].
  rewrite rows_loop_cons.
  destruct (negb _); [apply IH |]. destruct (non_blank _); [apply IH |].
  cbv zeta. destruct (res_of (find_image _ w)) as [url|x];
    [| by rewrite events_of_mk].
  destruct (chosen url) as [u|]; rewrite events_of_mk, saves_app, no_save;
    cbn [app].
  - change (saves (EvWrite ?t ?r ?c ?v :: EvSleep ?d :: ?l)) with (saves l).
    apply IH.
  - change (saves (EvSleep ?d :: ?l)) with (saves l). apply IH.
Qed.

Lemma process_sheet_no_save ws w :
  saves (events_of (process_sheet build_query find_image DELAY ws w)) = [].
Proof.
  rewrite process_sheet_run. cbv zeta.
  assert (Hh : saves (header_events ws) = []).
  { unfold header_events. by induction (header_cells ws). }
  pose proof (rows_loop_no_save (sheet_rows ws) (title_column ws)
                (image_column ws) (headers_map ws) (with_headers ws) 0 0 w)
    as Hr.
  destruct (res_of _) as [[[ws2 f] k]|x]; rewrite events_of_mk, !saves_app, Hh, Hr;
    done.
Qed.

Lemma sheets_loop_no_save wb tf ts w :
  saves (events_of (sheets_loop build_query find_image DELAY wb tf ts w)) = [].
Proof.
  revert tf ts w. induction wb as [|ws rest IH]; intros tf ts w; [done |].
  rewrite sheets_loop_cons. cbv zeta.
  pose proof (process_sheet_no_save ws w) as Hone.
  destruct (res_of (process_sheet _ _ _ ws w)) as [[[ws1 f] k]|x];
    [| by rewrite events_of_mk].
  destruct (res_of (sheets_loop _ _ _ rest _ _ _)) as [[[rest1 tf1] ts1]|x]
    eqn:Hmore; rewrite events_of_mk, saves_app, Hone, IH; done.
Qed.

(** A run saves once, at its end, and only when the pass did not raise. *)
Lemma fill_workbook_saves out wb w :
  saves (events_of (fill_workbook build_query find_image DELAY out wb w)) =
    match res_of (sheets_loop build_query find_image DELAY wb 0 0 w) with
    | Ok (wb', _, _) => [wb']
    | Raised _ => []
    end.
Proof.
  rewrite fill_workbook_run. cbv zeta.
  pose proof (sheets_loop_no_save wb 0 0 w) as Hs.
  destruct (res_of _) as [[[wb' tf] ts]|x]; rewrite events_of_mk; [| done].
  by rewrite saves_app, Hs.
Qed.

End PassFacts.

Section NeverRaises.
Context {env : Environment}.
Variable build_query : string -> worksheet -> nat -> gmap string nat -> string.
Variable find_image : string -> M (option string).
Variable DELAY : nat.

Hypothesis total : ∀ q w, ∃ url, res_of (find_image q w) = Ok url.




End NeverRaises.

(** ** Running twice (C8) *)

(** C8 (as amended): with provider responses unchanged (a stateless
    network, on which a blank URL is never live), a second run over the
    workbook that a first completed run left yields the same workbook: it
    writes no cell, fills no row and saves what the first run saved.  Its
    skipped counter is that of the first run, the rows with a blank title:
    the rows filled before are passed over without being counted. *)
Theorem second_run_changes_nothing `{env : Environment} (s : script)
    (wb wb1 : list worksheet) (w w' : world) (filled skipped : nat)
    (out : string) :
  stateless -> blank_urls_dead ->
  res_of (script_pass s wb w) = Ok (wb1, filled, skipped) ->
  (∃ w2 evs,
     script_pass s wb1 w' = (Ok (wb1, 0, skipped), w2, evs)
     ∧ writes evs = [])
  ∧ saves (events_of (fill_workbook (script_query s) (script_find s)
                        (script_delay s) out wb w)) = [wb1]
  ∧ saves (events_of (fill_workbook (script_query s) (script_find s)
                        (script_delay s) out wb1 w')) = [wb1]
  ∧ writes (events_of (fill_workbook (script_query s) (script_find s)
                         (script_delay s) out wb1 w')) = [].
Proof.
  intros Hst Hblank Hpass. unfold script_pass in *.
  destruct (workbook_second_pass s wb 0 0 w wb1 filled skipped Hst Hblank Hpass)
    as (d & -> & Hsecond).
  destruct (Hsecond 0 0 w') as (w2 & evs & Hrun & Hw).
  split; [by exists w2, evs |].
  rewrite !fill_workbook_saves by apply script_find_no_save.
  rewrite Hpass, Hrun, res_of_mk. split; [done |]. split; [done |].
  rewrite fill_workbook_run. cbv zeta.
  rewrite Hrun, res_of_mk, !events_of_mk, writes_app, Hw. done.
Qed.

Lemma shop_env_stateless : @stateless shop_env.
Proof. split; intros; reflexivity. Qed.

Lemma shop_env_blank_urls_dead : @blank_urls_dead shop_env.
Proof. intros url t w H. cbn. by rewrite H. Qed.

(** C8 at work: the second run over [filled_sheet_done]. *)
Lemma second_run_changes_nothing_witness :
  res_of (@script_pass shop_env (BingScript []) [filled_sheet] tt)
    = Ok ([filled_sheet_done], 1, 0)
  ∧ ∃ w2 evs,
      @script_pass shop_env (BingScript []) [filled_sheet_done] tt
        = (Ok ([filled_sheet_done], 0, 0), w2, evs)
      ∧ writes evs = [].
Proof.
  assert (H1 : res_of (@script_pass shop_env (BingScript []) [filled_sheet] tt)
               = Ok ([filled_sheet_done], 1, 0)) by (vm_compute; reflexivity).
  split; [exact H1 |].
  exact (proj1 (@second_run_changes_nothing shop_env (BingScript [])
                  [filled_sheet] [filled_sheet_done] tt tt 1 0 Bing.OUTPUT_XLSX
                  shop_env_stateless shop_env_blank_urls_dead H1)).
Defined.

(** C8 (as stated) fails on the counters: in the second run the two rows
    that hold an image are passed over, and the skipped counter stays 0. *)
Lemma filled_rows_not_counted_as_skipped :
  res_of (@script_pass shop_env (BingScript []) [filled_sheet] tt)
    = Ok ([filled_sheet_done], 1, 0)
  ∧ res_of (@script_pass shop_env (BingScript []) [filled_sheet_done] tt)
    = Ok ([filled_sheet_done], 0, 0)
  ∧ non_blank (cell_value filled_sheet_done 2 2) = true
  ∧ non_blank (cell_value filled_sheet_done 3 2) = true.
Proof. repeat split; vm_compute; reflexivity. Qed.

(** ** Fatal errors and the exit status (C5) *)





(** ** The host allow-list (C3) *)


(** C3, where the code departs from it: with the allow-list
    ["example.com"], a URL hosted at notexample.com is accepted, although
    that host neither equals example.com nor is a subdomain of it, and a URL
    hosted at example.com with a port is rejected; the two examples of the
    claim come out as stated. *)
Theorem allow_list_is_a_bare_suffix_test :
  @UrlParse.netloc shop_env "https://notexample.com/a.png" = Some "notexample.com"
  ∧ @Bing.domain_is_allowed shop_env ["example.com"]
      "https://notexample.com/a.png" = true
  ∧ spec_host_allowed ["example.com"] "notexample.com" = false
  ∧ @UrlParse.netloc shop_env "https://example.com:8443/a.png"
    = Some "example.com:8443"
  ∧ @Bing.domain_is_allowed shop_env ["example.com"]
      "https://example.com:8443/a.png" = false
  ∧ spec_host_allowed ["example.com"] "example.com" = true
  ∧ @Bing.domain_is_allowed shop_env ["example.com"]
      "https://img.cdn.other.com/a.png" = false
  ∧ @Bing.domain_is_allowed shop_env ["example.com"]
      "https://cdn.example.com/a.png" = true
  ∧ @Bing.domain_is_allowed shop_env [] "https://img.cdn.other.com/a.png" = true.
Proof. repeat split; vm_compute; reflexivity. Qed.

(** ** Examples from the scripts and the specification *)

Example dedupe_words_docstring :
  dedupe_words "Aeropostale India India Global" = "Aeropostale India Global".
Proof. vm_compute. reflexivity. Qed.

Example dedupe_words_case :
  dedupe_words "Visa Gift Card India india" = "Visa Gift Card India".
Proof. vm_compute. reflexivity. Qed.

Example split_example :
  PyStr.split "  Visa  Gift Card " = ["Visa"; "Gift"; "Card"].
Proof. reflexivity. Qed.

Example strip_example : PyStr.strip "  a b  " = "a b".
Proof. reflexivity. Qed.

(** * Further properties of the scripts *)

(** ** More on strings *)

Lemma lower_app (a b : string) :
  PyStr.lower (a +:+ b) = PyStr.lower a +:+ PyStr.lower b.
Proof.
  induction a as [|c a IH]; [done |].
  rewrite string_app_cons. simpl. by rewrite IH.
Qed.






(** Whitespace only. *)
Lemma split_acc_nonempty (cur s : string) :
  cur ≠ "" -> PyStr.split_acc cur s ≠ [].
Proof.
  revert cur. induction s as [|c s IH]; intros cur Hcur; simpl.
  - by destruct (decide (cur = "")).
  - destruct (PyStr.is_space c).
    + by destruct (decide (cur = "")).
    + apply IH. by destruct cur.
Qed.

Lemma split_lstrip (s : string) : PyStr.split (PyStr.lstrip s) = PyStr.split s.
Proof.
  unfold PyStr.split. induction s as [|c s IH]; [done |].
  simpl. destruct (PyStr.is_space c) eqn:Hc; [| by simpl; rewrite Hc].
  by rewrite IH.
Qed.

Lemma split_acc_rstrip (cur s : string) :
  PyStr.split_acc cur (PyStr.rstrip s) = PyStr.split_acc cur s.
Proof.
  revert cur. induction s as [|c s IH]; intros cur; [done |].
  cbn [PyStr.rstrip].
  destruct (PyStr.rstrip s) as [|c' r] eqn:Hr.
  - destruct (PyStr.is_space c) eqn:Hc; cbn [PyStr.split_acc]; rewrite Hc.
    + rewrite <- (IH ""). cbn [PyStr.split_acc].
      destruct (decide (cur = "")); by destruct (decide ("" = "")).
    + by rewrite <- IH.
  - cbn [PyStr.split_acc]. destruct (PyStr.is_space c); by rewrite <- !IH.
Qed.

(** [strip] changes no word. *)
Lemma split_strip (s : string) : PyStr.split (PyStr.strip s) = PyStr.split s.
Proof.
  unfold PyStr.strip, PyStr.split. by rewrite split_acc_rstrip, split_lstrip.
Qed.

Lemma lstrip_starts (s : string) :
  match PyStr.lstrip s with
  | EmptyString => True
  | String c _ => PyStr.is_space c = false
  end.
Proof.
  induction s as [|c s IH]; [done |]. simpl.
  destruct (PyStr.is_space c) eqn:Hc; [done |]. by rewrite Hc.
Qed.

Lemma rstrip_nonempty (c : ascii) (s : string) :
  PyStr.is_space c = false -> PyStr.rstrip (String c s) ≠ "".
Proof.
  intros Hc. cbn [PyStr.rstrip]. destruct (PyStr.rstrip s); by rewrite ?Hc.
Qed.

(** A text is blank exactly when it has no word. *)
Lemma strip_blank_iff (s : string) :
  PyStr.truthy (PyStr.strip s) = false ↔ PyStr.split s = [].
Proof.
  rewrite <- split_strip. unfold PyStr.strip.
  pose proof (lstrip_starts s) as Hstart.
  destruct (PyStr.lstrip s) as [|c t] eqn:Hl; [done |].
  pose proof (rstrip_nonempty c t Hstart) as Hne.
  split.
  - intros Ht. by destruct (PyStr.rstrip (String c t)).
  - unfold PyStr.split. rewrite split_acc_rstrip. cbn [PyStr.split_acc].
    rewrite Hstart. intros Hs. by apply split_acc_nonempty in Hs.
Qed.

(** Splitting two texts joined by a blank gives the words of the first,
    then the words of the second. *)
Lemma split_acc_blank (cur a b : string) (c : ascii) :
  PyStr.is_space c = true ->
  PyStr.split_acc cur (a +:+ String c b) =
    PyStr.split_acc cur a ++ PyStr.split b.
Proof.
  intros Hc. revert cur. induction a as [|x a IH]; intros cur.
  - rewrite string_app_nil_l. cbn [PyStr.split_acc]. rewrite Hc.
    by destruct (decide (cur = "")).
  - rewrite string_app_cons. cbn [PyStr.split_acc].
    destruct (PyStr.is_space x); [| apply IH].
    destruct (decide (cur = "")); by rewrite IH.
Qed.

Lemma split_join_parts (parts : list string) :
  PyStr.split (PyStr.join " " parts) = List.flat_map PyStr.split parts.
Proof.
  induction parts as [|p rest IH]; [done |].
  destruct rest as [|q rest].
  - simpl. by rewrite app_nil_r.
  - change (PyStr.join " " (p :: q :: rest))
      with (p +:+ String " " (PyStr.join " " (q :: rest))).
    unfold PyStr.split at 1. rewrite split_acc_blank by done.
    by rewrite IH.
Qed.

Lemma join_nonempty (w : string) (rest : list string) :
  w ≠ "" -> PyStr.join " " (w :: rest) ≠ "".
Proof.
  intros Hw. destruct rest as [|q rest]; [done |].
  change (PyStr.join " " (w :: q :: rest))
    with (w +:+ String " " (PyStr.join " " (q :: rest))).
  by destruct w.
Qed.

(** ** More on the first-occurrence loop *)

(** Every item leaves its key in the result, unless the key was seen. *)
Lemma first_seen_cover key items seen x :
  x ∈ items ->
  key x ∈ seen ∨ key x ∈ (key <$> first_seen key items seen []).
Proof.
  revert seen. induction items as [|y rest IH]; intros seen.
  - by intros ?%elem_of_nil.
  - rewrite first_seen_cons. intros [->|Hin]%elem_of_cons.
    + destruct (decide (key y ∈ seen)); [by left |].
      right. rewrite fmap_cons. by left.
    + destruct (decide (key y ∈ seen)); [by apply IH |].
      destruct (IH ({[key y]} ∪ seen) Hin) as [Hs|Hr].
      * apply elem_of_union in Hs as [->%elem_of_singleton|Hs]; [| by left].
        right. rewrite fmap_cons. by left.
      * right. rewrite fmap_cons. by right.
Qed.

(** Every item of the result is the first of its key in the list. *)
Lemma first_seen_first key items seen w :
  w ∈ first_seen key items seen [] ->
  ∃ pre post, items = pre ++ w :: post
              ∧ (key w ∉ (key <$> pre)) ∧ (key w ∉ seen).
Proof.
  revert seen. induction items as [|y rest IH]; intros seen.
  - by intros ?%elem_of_nil.
  - rewrite first_seen_cons. destruct (decide (key y ∈ seen)) as [Hy|Hy].
    + intros (pre & post & -> & Hpre & Hs)%IH.
      exists (y :: pre), post. split; [done |]. split; [| done].
      rewrite fmap_cons, not_elem_of_cons. split; [| done].
      intros Heq. apply Hs. by rewrite Heq.
    + intros [->|Hin]%elem_of_cons.
      * exists [], rest. split; [done |]. split; [| done].
        rewrite fmap_nil. apply not_elem_of_nil.
      * apply IH in Hin as (pre & post & -> & Hpre & Hs).
        rewrite elem_of_union, elem_of_singleton in Hs.
        exists (y :: pre), post. split; [done |]. split; [| tauto].
        rewrite fmap_cons, not_elem_of_cons. tauto.
Qed.

(** ** [dedupe_words] *)

Lemma dedupe_words_head (s : string) :
  head (PyStr.split (dedupe_words s)) = head (PyStr.split s).
Proof.
  rewrite dedupe_words_tokens.
  destruct (PyStr.split s) as [|w rest]; [done |].
  rewrite first_seen_cons. by rewrite decide_False by apply not_elem_of_empty.
Qed.

(** X1: no word is lost up to case, each word kept is the first occurrence
    with its spelling, and the first word stays first. *)
Theorem dedupe_words_keeps_first_occurrences (s : string) :
  (∀ w, w ∈ PyStr.split s ->
        PyStr.lower w ∈ (PyStr.lower <$> PyStr.split (dedupe_words s)))
  ∧ (∀ w, w ∈ PyStr.split (dedupe_words s) ->
          ∃ pre post, PyStr.split s = pre ++ w :: post
                      ∧ (PyStr.lower w ∉ (PyStr.lower <$> pre)))
  ∧ head (PyStr.split (dedupe_words s)) = head (PyStr.split s).
Proof.
  split; [| split; [| apply dedupe_words_head]]; rewrite dedupe_words_tokens.
  - intros w Hw.
    destruct (first_seen_cover PyStr.lower _ ∅ w Hw) as [Hs|Hr]; [| done].
    by apply not_elem_of_empty in Hs.
  - intros w (pre & post & Hs & Hpre & _)%first_seen_first. eauto.
Qed.

(** X2: a text without a repeated word (up to case) only has its whitespace
    normalised: the words, joined by single spaces. *)
Theorem dedupe_words_distinct (s : string) :
  NoDup (PyStr.lower <$> PyStr.split s) ->
  dedupe_words s = PyStr.join " " (PyStr.split s).
Proof.
  intros Hnd. unfold dedupe_words. f_equal.
  apply first_seen_id; [done |]. intros k _. apply not_elem_of_empty.
Qed.

Lemma dedupe_words_distinct_witness :
  NoDup (PyStr.lower <$> PyStr.split "  Visa   Gift Card ")
  ∧ dedupe_words "  Visa   Gift Card " = "Visa Gift Card".
Proof.
  assert (H : NoDup (PyStr.lower <$> PyStr.split "  Visa   Gift Card "))
    by (apply (bool_decide_unpack _); vm_compute; exact I).
  split; [exact H |].
  exact (dedupe_words_distinct "  Visa   Gift Card " H).
Defined.

(** X3: the result is empty exactly for a blank text; in every case it is in
    normal form, its own words joined by single spaces. *)
Theorem dedupe_words_blank_iff (s : string) :
  (dedupe_words s = "" ↔ PyStr.truthy (PyStr.strip s) = false)
  ∧ dedupe_words s = PyStr.join " " (PyStr.split (dedupe_words s)).
Proof.
  split; [| by rewrite dedupe_words_tokens].
  rewrite strip_blank_iff.
  pose proof (dedupe_words_head s) as Hhead.
  split.
  - intros He. rewrite He in Hhead. by destruct (PyStr.split s).
  - intros He. unfold dedupe_words. by rewrite He.
Qed.

(** ** [parse_bing_image_results]: the final loop *)


(** ** [domain_is_allowed] *)


(** ** [build_query] *)

(** X6: for a row whose title passes the test of the scripts, the query of
    each of the three scripts is not empty, and its first word is the first
    word of the title. *)
Theorem query_of_titled_row (s : script) (title : value) (ws : worksheet)
    (row : nat) (cols : gmap string nat) :
  non_blank title = true ->
  script_query s (py_str title) ws row cols ≠ ""
  ∧ ∃ w, head (PyStr.split (py_str title)) = Some w
         ∧ head (PyStr.split (script_query s (py_str title) ws row cols))
           = Some w.
Proof.
  intros Hnb. apply andb_prop in Hnb as [_ Hstrip].
  assert (Hwords : PyStr.split (py_str title) ≠ []).
  { intros He. apply strip_blank_iff in He. congruence. }
  destruct (PyStr.split (py_str title)) as [|w rest] eqn:Hsplit; [done |].
  set (parts := PyStr.strip (py_str title) :: optional_bits ws row cols).
  assert (Hhead : head (PyStr.split (PyStr.join " " parts)) = Some w).
  { rewrite split_join_parts. unfold parts. cbn [List.flat_map].
    by rewrite split_strip, Hsplit. }
  assert (Hq : head (PyStr.split (script_query s (py_str title) ws row cols))
               = Some w).
  { destruct s; simpl;
      unfold Bing.build_query, Google.build_query, Pixabay.build_query;
      fold parts; try done;
      by rewrite dedupe_words_head. }
  split; [| by exists w].
  intros He. by rewrite He in Hq.
Qed.

Lemma query_of_titled_row_witness :
  non_blank (VInt 50) = true
  ∧ script_query (BingScript []) (py_str (VInt 50)) blank_sheet 2 ∅ ≠ "".
Proof.
  split; [reflexivity |].
  exact (proj1 (query_of_titled_row (BingScript []) (VInt 50) blank_sheet 2 ∅
                  eq_refl)).
Defined.

(** ** What the providers return *)

Lemma bing_found `{env : Environment} (allowed : list string)
    (query : string) (w : world) (u : string) :
  res_of (Bing.bing_first_live_image allowed query w) = Ok (Some u) ->
  Bing.domain_is_allowed allowed u = true
  ∧ u ∈ bing_candidates (events_of (Bing.bing_first_live_image allowed query w))
  ∧ (u, true) ∈ probes (events_of (Bing.bing_first_live_image allowed query w)).
Proof.
  unfold Bing.bing_first_live_image. intros Hres.
  destruct (bing_pages_selection allowed query Bing.BING_PAGES_FIRST_PARAMS w)
    as (found & k & Hres' & _ & _ & Hfound).
  rewrite Hres in Hres'. injection Hres' as <-.
  destruct Hfound as (pre & post & evs0 & o & Hf & Hp & _).
  assert (Hin : List.In u (List.filter (Bing.domain_is_allowed allowed)
    (bing_candidates (events_of (Bing.bing_pages allowed query
                                   Bing.BING_PAGES_FIRST_PARAMS w))))).
  { rewrite Hf. apply List.in_or_app. right. by left. }
  apply List.filter_In in Hin as [Hin Hok].
  split; [done |]. split; [by apply list_elem_of_In |].
  rewrite Hp, elem_of_app. right. by left.
Qed.

(** X7: a URL returned by [bing_first_live_image] passes
    [domain_is_allowed], is a candidate of a page that was fetched, and was
    probed live. *)
Theorem bing_result_allowed_and_live `{env : Environment}
    (allowed : list string) (query : string) (w : world) (u : string) :
  res_of (Bing.bing_first_live_image allowed query w) = Ok (Some u) ->
  Bing.domain_is_allowed allowed u = true
  ∧ u ∈ bing_candidates (events_of (Bing.bing_first_live_image allowed query w))
  ∧ (u, true) ∈ probes (events_of (Bing.bing_first_live_image allowed query w)).
Proof. apply bing_found. Qed.

Lemma bing_result_allowed_and_live_witness :
  res_of (@Bing.bing_first_live_image shop_env [] "visa" tt) = Ok (Some "liveurl2")
  ∧ @Bing.domain_is_allowed shop_env [] "liveurl2" = true.
Proof.
  split; [vm_compute; reflexivity |].
  refine (proj1 (@bing_result_allowed_and_live shop_env [] "visa" tt "liveurl2" _)).
  vm_compute. reflexivity.
Defined.




(** ** More on [ensure_headers] *)

Section HeaderFacts.
Context {env : Environment}.

(** Only a non-empty text is found as a header. *)
Lemma read_headers_truthy (ws : worksheet) (n : nat) (h : string) (c : nat) :
  read_headers ws n !! h = Some c -> PyStr.truthy h = true.
Proof.
  induction n as [|n IH]; [done |].
  rewrite read_headers_S. unfold header_step.
  destruct (cell_value ws 1 (S n)) as [|s| | |]; try done.
  destruct (PyStr.truthy (PyStr.strip s)) eqn:Ht; [| done].
  rewrite lookup_insert. case_decide as Heq; [| done]. by rewrite <- Heq.
Qed.

(** Of several columns with the same header, the last is found. *)
Lemma read_headers_last (ws : worksheet) (n : nat) (h : string) (c : nat) :
  read_headers ws n !! h = Some c ->
  ∀ c' s, c < c' ≤ n -> cell_value ws 1 c' = VStr s -> PyStr.strip s ≠ h.
Proof.
  induction n as [|n IH]; [done |].
  rewrite read_headers_S. unfold header_step. intros Hh c' s Hc' Hcell Hs.
  destruct (decide (c' = S n)) as [->|Hne].
  - rewrite Hcell in Hh.
    destruct (PyStr.truthy (PyStr.strip s)) eqn:Ht.
    + rewrite Hs, lookup_insert_eq in Hh. injection Hh as <-. lia.
    + apply read_headers_truthy in Hh. congruence.
  - assert (Hprev : read_headers ws n !! h = Some c).
    { destruct (cell_value ws 1 (S n)) as [|s'| | |]; try done.
      destruct (PyStr.truthy (PyStr.strip s')); [| done].
      rewrite lookup_insert in Hh. case_decide as Heq; [| done].
      injection Hh as <-. lia. }
    eapply IH; [done | | done | done]. lia.
Qed.

Lemma found_headers_with_headers (ws : worksheet) :
  found_headers (with_headers ws) = headers_map ws.
Proof. by apply found_headers_after. Qed.

End HeaderFacts.

(** X10: [ensure_headers] is idempotent: run on the sheet it left, it writes
    nothing and returns the same sheet and the same map. *)
Theorem ensure_headers_idempotent `{env : Environment} (ws : worksheet)
    (w w' : world) :
  ∃ ws1 cols evs,
    ensure_headers ws [TITLE_HEADER; IMAGE_HEADER] w = (Ok (ws1, cols), w, evs)
    ∧ ensure_headers ws1 [TITLE_HEADER; IMAGE_HEADER] w'
      = (Ok (ws1, cols), w', []).
Proof.
  eexists _, _, _. split; [apply ensure_headers_run |].
  rewrite ensure_headers_run.
  destruct (headers_after ws (with_headers ws)) as (-> & -> & ->); done.
Qed.

(** X11: the map that [ensure_headers] returns knows Title and Image, and
    gives a name the column [c] exactly when the name is not empty and [c]
    is the last column of the sheet it leaves whose cell in row 1 is a text
    that, trimmed, is that name: of two columns with the same header the
    right one wins, and matching is exact in case. *)
Theorem ensure_headers_map `{env : Environment} (ws : worksheet) (w : world) :
  ∃ ws1 cols evs,
    ensure_headers ws [TITLE_HEADER; IMAGE_HEADER] w = (Ok (ws1, cols), w, evs)
    ∧ is_Some (cols !! TITLE_HEADER)
    ∧ is_Some (cols !! IMAGE_HEADER)
    ∧ ∀ h c,
        cols !! h = Some c
        ↔ PyStr.truthy h = true
          ∧ 1 ≤ c ≤ max_column ws1
          ∧ (∃ s, cell_value ws1 1 c = VStr s ∧ PyStr.strip s = h)
          ∧ ∀ c' s, c < c' ≤ max_column ws1 ->
                    cell_value ws1 1 c' = VStr s -> PyStr.strip s ≠ h.
Proof.
  exists (with_headers ws), (headers_map ws), (header_events ws).
  split; [apply ensure_headers_run |].
  destruct (headers_map_title ws) as [Ht _].
  destruct (headers_map_image ws) as [Hi _].
  split; [by rewrite Ht |]. split; [by rewrite Hi |].
  rewrite <- found_headers_with_headers. unfold found_headers.
  set (ws1 := with_headers ws). intros h c. split.
  - intros Hh. split; [by apply read_headers_truthy in Hh |].
    destruct (read_headers_Some _ _ _ _ Hh) as (Hc & Hs).
    split; [done |]. split; [done |]. by apply read_headers_last.
  - intros (Hh & Hc & (s & Hcell & Hs) & Hlast).
    destruct (read_headers ws1 (max_column ws1) !! h) as [c0|] eqn:Hl.
    + destruct (read_headers_Some _ _ _ _ Hl) as (Hc0 & s0 & Hcell0 & Hs0).
      pose proof (read_headers_last _ _ _ _ Hl) as Hlast0.
      f_equal. destruct (Nat.lt_trichotomy c0 c) as [Hlt|[?|Hgt]]; [| done |].
      * exfalso. apply (Hlast0 c s); [lia | done | done].
      * exfalso. apply (Hlast c0 s0); [lia | done | done].
    + pose proof (read_headers_None _ _ _ Hl c s Hc Hcell Hs). congruence.
Qed.

(** X12: [ensure_headers] only adds: it keeps the title of the sheet, its
    height and every cell below row 1 or inside the old width; it writes at
    most two cells, all in row 1 and past the old width, and the sheet grows
    by as many columns. *)
Theorem ensure_headers_only_adds `{env : Environment} (ws : worksheet)
    (w : world) :
  ∃ ws1 cols evs,
    ensure_headers ws [TITLE_HEADER; IMAGE_HEADER] w = (Ok (ws1, cols), w, evs)
    ∧ ws_title ws1 = ws_title ws
    ∧ max_row ws1 = max_row ws
    ∧ max_column ws1 = max_column ws + length evs
    ∧ length evs ≤ 2
    ∧ (∀ r c, r ≠ 1 ∨ c ≤ max_column ws ->
              cell_value ws1 r c = cell_value ws r c)
    ∧ ∀ e, e ∈ evs ->
        ∃ c h, e = EvWrite (ws_title ws) 1 c (VStr h)
               ∧ max_column ws < c
               ∧ (h = TITLE_HEADER ∨ h = IMAGE_HEADER)
               ∧ cell_value ws1 1 c = VStr h.
Proof.
  exists (with_headers ws), (headers_map ws), (header_events ws).
  split; [apply ensure_headers_run |].
  split; [apply with_headers_title |].
  split; [apply with_headers_max_row |].
  unfold header_events. rewrite length_fmap.
  split; [apply with_headers_max_column |].
  split.
  { destruct (headers_cases ws) as
      [(tc & ic & Ht & Hi & ->)|[(tc & Ht & Hi & ->)|[(ic & Ht & Hi & ->)|(Ht & Hi & ->)]]];
      cbn; lia. }
  split; [apply with_headers_old_cell |].
  intros e ([c h] & -> & Hin)%list_elem_of_fmap. exists c, h.
  split; [done |]. split; [by apply header_cells_beyond in Hin |].
  split; [| by apply with_headers_new_cell].
  revert Hin.
  destruct (headers_cases ws) as
    [(tc & ic & Ht & Hi & ->)|[(tc & Ht & Hi & ->)|[(ic & Ht & Hi & ->)|(Ht & Hi & ->)]]];
    rewrite ?elem_of_cons, ?elem_of_nil; intros Hin;
    repeat destruct Hin as [Hin|Hin]; try done; injection Hin as -> ->; auto.
Qed.

(** ** More on the loop over the rows *)

Section RowsMore.
Context {env : Environment}.
Variable build_query : string -> worksheet -> nat -> gmap string nat -> string.
Variable find_image : string -> M (option string).
Variable DELAY : nat.
Variables title_col image_col : nat.
Variable cols : gmap string nat.

Local Abbreviation loop := (rows_loop build_query find_image DELAY).


(** A loop over rows that are untitled or already have their image does
    nothing: no event, the same sheet, the same world; it only counts the
    untitled rows. *)
Lemma rows_loop_idle rows ws filled skipped w :
  (∀ r, r ∈ rows ->
        non_blank (cell_value ws r title_col) = false
        ∨ non_blank (cell_value ws r image_col) = true) ->
  ∃ d, d ≤ length rows
    ∧ loop rows title_col image_col cols ws filled skipped w
      = (Ok (ws, filled, skipped + d), w, []).
Proof.
  revert skipped. induction rows as [|row rest IH]; intros skipped Hrows.
  - exists 0. split; [done |]. simpl. by rewrite Nat.add_0_r.
  - assert (Hrest : ∀ r, r ∈ rest ->
      non_blank (cell_value ws r title_col) = false
      ∨ non_blank (cell_value ws r image_col) = true)
      by (intros r Hr; apply Hrows; by right).
    rewrite rows_loop_cons.
    destruct (non_blank (cell_value ws row title_col)) eqn:Ht; cbn [negb].
    + destruct (Hrows row) as [?|Hi]; [by left | congruence |].
      rewrite Hi.
      destruct (IH skipped Hrest) as (d & Hd & ->).
      exists d. split; [simpl; lia | done].
    + destruct (IH (skipped + 1) Hrest) as (d & Hd & ->).
      exists (1 + d). split; [simpl; lia |].
      by replace (skipped + (1 + d)) with (skipped + 1 + d) by lia.
Qed.

Hypothesis columns_differ : title_col ≠ image_col.
Hypothesis quiet : ∀ q w, writes (events_of (find_image q w)) = [].

(** The counters: a row filled for every cell written, a row skipped for
    every untitled row; together no more than the rows visited. *)
Lemma rows_loop_counts rows ws filled skipped w ws' filled' skipped' :
  res_of (loop rows title_col image_col cols ws filled skipped w)
    = Ok (ws', filled', skipped') ->
  filled' = filled
            + length (writes (events_of
                (loop rows title_col image_col cols ws filled skipped w)))
  ∧ skipped' = skipped
               + length (List.filter
                   (fun r => negb (non_blank (cell_value ws r title_col))) rows)
  ∧ (filled' - filled) + (skipped' - skipped) ≤ length rows.
Proof.
  revert ws filled skipped w.
  induction rows as [|row rest IH]; intros ws filled skipped w.
  - intros [= <- <- <-]. cbn. lia.
  - rewrite rows_loop_cons. cbn [List.filter].
    destruct (negb (non_blank (cell_value ws row title_col))) eqn:Ht.
    { intros (-> & -> & Hle)%IH. cbn [length]. lia. }
    destruct (non_blank (cell_value ws row image_col)).
    { intros (-> & -> & Hle)%IH. cbn [length]. lia. }
    cbv zeta.
    destruct (res_of (find_image _ w)) as [url|e]; [| by rewrite res_of_mk].
    destruct (chosen url) as [u|]; rewrite res_of_mk, events_of_mk, writes_app,
      quiet; cbn [app].
    + change (writes (EvWrite ?t ?r ?c ?v :: EvSleep ?d :: ?l))
        with ((t, r, c, v) :: writes l).
      intros (-> & -> & Hle)%IH. cbn [length].
      assert (Hsame : List.filter
          (fun r => negb (non_blank
             (cell_value (set_cell ws row image_col (VStr u)) r title_col))) rest
        = List.filter
          (fun r => negb (non_blank (cell_value ws r title_col))) rest).
      { apply List.filter_ext. intros r.
        rewrite cell_value_set_cell_ne; [done |]. intros [= _ ?]. done. }
      rewrite Hsame in *. lia.
    + change (writes (EvSleep ?d :: ?l)) with (writes l).
      intros (-> & -> & Hle)%IH. cbn [length]. lia.
Qed.

End RowsMore.

(** ** More on the pass over a sheet and over a workbook *)

(** X13: a completed pass over a sheet keeps its title and its height, and
    every cell that existed, except cells of the image column that did not
    pass the test of the scripts; a cell that differs from the one of the
    sheet with its headers is in the image column, below row 1, was blank,
    and now holds a non-empty URL. *)
Theorem pass_changes_only_blank_image_cells `{env : Environment} (s : script)
    (ws : worksheet) (w : world) (ws' : worksheet) (filled skipped : nat) :
  res_of (script_sheet s ws w) = Ok (ws', filled, skipped) ->
  ws_title ws' = ws_title ws
  ∧ max_row ws' = max_row ws
  ∧ (∀ r c v, ws_cells ws !! (r, c) = Some v ->
              c ≠ image_column ws ∨ non_blank v = true ->
              cell_value ws' r c = v)
  ∧ (∀ r c, cell_value ws' r c ≠ cell_value ws r c ->
            (r = 1 ∧ max_column ws < c
             ∧ (cell_value ws' r c = VStr TITLE_HEADER
                ∨ cell_value ws' r c = VStr IMAGE_HEADER))
            ∨ (c = image_column ws ∧ 2 ≤ r ≤ max_row ws
               ∧ non_blank (cell_value ws r c) = false
               ∧ ∃ u, cell_value ws' r c = VStr u ∧ PyStr.truthy u = true)).
Proof.
  intros Hres. pose proof (script_sheet_result s ws w ws' filled skipped Hres)
    as [Htitle Hcells].
  assert (Hold : ∀ r c v, ws_cells ws !! (r, c) = Some v ->
            cell_value (with_headers ws) r c = cell_value ws r c).
  { intros r c v Hv. apply with_headers_old_cell. right.
    destruct (proj1 (max_column_spec ws _) eq_refl) as (_ & Hub & _). eauto. }
  split; [done |]. split; [| split].
  - unfold script_sheet in Hres. rewrite process_sheet_run in Hres.
    cbv zeta in Hres.
    destruct (res_of (rows_loop _ _ _ _ _ _ _ _ _ _ w)) as [[[ws2 f2] k2]|x]
      eqn:Hrun; rewrite res_of_mk in Hres; [| done].
    injection Hres as -> -> ->.
    destruct (headers_map_image ws) as [Hic _].
    apply headers_map_range in Hic.
    eapply rows_loop_dims in Hrun as [Hr _].
    + by rewrite Hr, with_headers_max_row.
    + intros r Hr%elem_of_sheet_rows. rewrite with_headers_max_row. lia.
    + lia.
  - intros r c v Hv Hkeep.
    assert (Hcv : cell_value ws r c = v) by (unfold cell_value; by rewrite Hv).
    destruct (Hcells r c) as [Heq|(-> & _ & Hb & _)].
    + by rewrite Heq, (Hold r c v).
    + destruct Hkeep as [?|Hnb]; [done |]. congruence.
  - intros r c Hne. destruct (Hcells r c) as [Heq|(-> & Hr & Hb & Hu)].
    + left. rewrite Heq in Hne |- *.
      destruct (decide (r = 1)) as [->|Hr1];
        [| by rewrite with_headers_old_cell in Hne by (by left)].
      destruct (decide (c ≤ max_column ws)) as [Hc|Hc];
        [by rewrite with_headers_old_cell in Hne by (by right) |].
      split; [done |]. split; [lia |].
      clear Heq Hcells Hold. revert Hne. unfold with_headers.
      destruct (headers_cases ws) as
        [(tc & ic & Ht & Hi & ->)|[(tc & Ht & Hi & ->)|[(ic & Ht & Hi & ->)|(Ht & Hi & ->)]]];
        cbn [foldl fst snd]; rewrite ?cell_value_set_cell;
        repeat case_decide; auto; done.
    + by right.
Qed.

Lemma pass_changes_only_blank_image_cells_witness :
  res_of (@script_sheet shop_env (BingScript []) filled_sheet tt)
    = Ok (filled_sheet_done, 1, 0)
  ∧ max_row filled_sheet_done = max_row filled_sheet.
Proof.
  assert (H : res_of (@script_sheet shop_env (BingScript []) filled_sheet tt)
              = Ok (filled_sheet_done, 1, 0)) by (vm_compute; reflexivity).
  split; [exact H |].
  exact (proj1 (proj2 (@pass_changes_only_blank_image_cells shop_env
                         (BingScript []) filled_sheet tt filled_sheet_done 1 0 H))).
Defined.



(** X15: the counters of a completed pass over a sheet: [filled] is the
    number of cells written below the headers, [skipped] the number of rows
    2 to [max_row] whose title does not pass the test, and together they
    count no more than those rows: a row that already had its image, or for
    which nothing was found, is in neither. *)
Theorem sheet_counters `{env : Environment} (s : script) (ws : worksheet)
    (w : world) (ws' : worksheet) (filled skipped : nat) :
  res_of (script_sheet s ws w) = Ok (ws', filled, skipped) ->
  length (writes (events_of (script_sheet s ws w)))
    = length (header_cells ws) + filled
  ∧ skipped =
      length (List.filter
                (fun r => negb (non_blank (cell_value ws r (title_column ws))))
                (seq 2 (max_row ws - 1)))
  ∧ filled + skipped ≤ max_row ws - 1.
Proof.
  unfold script_sheet. rewrite process_sheet_run. cbv zeta.
  destruct (res_of (rows_loop _ _ _ _ _ _ _ _ _ _ w)) as [[[ws2 f2] k2]|x]
    eqn:Hrun; rewrite res_of_mk, ?events_of_mk; [| done].
  intros [= -> -> ->].
  apply rows_loop_counts in Hrun as (Hf & Hk & Hle);
    [| apply title_image_columns_differ | apply script_find_quiet].
  rewrite !writes_app, !length_app, writes_header_events, length_fmap.
  cbn [writes omap length]. rewrite Nat.add_0_r.
  unfold sheet_rows in *. rewrite with_headers_max_row in *.
  rewrite length_seq in Hle.
  split; [lia |]. split; [| lia].
  rewrite Hk. cbn [Nat.add]. f_equal. apply List.filter_ext_in.
  intros r Hr%list_elem_of_In%elem_of_seq.
  by rewrite with_headers_old_cell by (left; lia).
Qed.

Lemma sheet_counters_witness :
  res_of (@script_sheet shop_env (BingScript []) filled_sheet tt)
    = Ok (filled_sheet_done, 1, 0)
  ∧ 1 + 0 ≤ max_row filled_sheet - 1.
Proof.
  assert (H : res_of (@script_sheet shop_env (BingScript []) filled_sheet tt)
              = Ok (filled_sheet_done, 1, 0)) by (vm_compute; reflexivity).
  split; [exact H |].
  exact (proj2 (proj2 (@sheet_counters shop_env (BingScript []) filled_sheet tt
                         filled_sheet_done 1 0 H))).
Defined.

(** X16: a sheet on which every row below the headers is untitled or already
    has its image costs nothing: the pass sends no request, probes no URL,
    takes no pause, fills nothing and leaves the world as it was; whatever
    the network or a missing key would have answered plays no part. *)
Theorem nothing_to_fill_no_request `{env : Environment} (s : script)
    (ws : worksheet) (w : world) :
  (∀ r, 2 ≤ r ≤ max_row ws ->
        non_blank (cell_value ws r (title_column ws)) = false
        ∨ non_blank (cell_value ws r (image_column ws)) = true) ->
  ∃ ws1 skipped evs,
    script_sheet s ws w = (Ok (ws1, 0, skipped), w, evs)
    ∧ gets evs = [] ∧ probes evs = [] ∧ sleeps evs = []
    ∧ length (writes evs) ≤ 2
    ∧ ∀ r c, r ≠ 1 -> cell_value ws1 r c = cell_value ws r c.
Proof.
  intros Hrows. unfold script_sheet. rewrite process_sheet_run. cbv zeta.
  destruct (rows_loop_idle (script_query s) (script_find s) (script_delay s)
              (title_column ws) (image_column ws) (headers_map ws)
              (sheet_rows ws) (with_headers ws) 0 0 w) as (d & _ & Hrun).
  { intros r Hr%elem_of_sheet_rows.
    rewrite !with_headers_old_cell by (left; lia). by apply Hrows. }
  rewrite Hrun, res_of_mk, world_of_mk, events_of_mk.
  eexists _, _, _. split; [reflexivity |].
  assert (Hh : gets (header_events ws) = [] ∧ probes (header_events ws) = []
               ∧ sleeps (header_events ws) = []
               ∧ length (writes (header_events ws)) ≤ 2).
  { rewrite writes_header_events, length_fmap. unfold header_events.
    destruct (headers_cases ws) as
      [(tc & ic & Ht & Hi & ->)|[(tc & Ht & Hi & ->)|[(ic & Ht & Hi & ->)|(Ht & Hi & ->)]]];
      cbn; repeat split; lia. }
  destruct Hh as (Hg & Hp & Hs & Hw).
  rewrite gets_app, probes_app, sleeps_app, writes_app, Hg, Hp, Hs, length_app.
  repeat split; try done.
  - cbn. lia.
  - intros r c Hr. apply with_headers_old_cell. by left.
Qed.

Lemma nothing_to_fill_no_request_witness :
  (∀ r, 2 ≤ r ≤ max_row idle_sheet ->
        non_blank (cell_value idle_sheet r (title_column idle_sheet)) = false
        ∨ non_blank (cell_value idle_sheet r (image_column idle_sheet)) = true)
  ∧ ∃ ws1 skipped evs,
      @script_sheet throttled_env (PixabayScript "") idle_sheet tt
        = (Ok (ws1, 0, skipped), tt, evs)
      ∧ gets evs = [].
Proof.
  assert (H : ∀ r, 2 ≤ r ≤ max_row idle_sheet ->
        non_blank (cell_value idle_sheet r (title_column idle_sheet)) = false
        ∨ non_blank (cell_value idle_sheet r (image_column idle_sheet)) = true).
  { change (max_row idle_sheet) with 2. intros r Hr.
    assert (r = 2) as -> by lia. right. by vm_compute. }
  split; [exact H |].
  destruct (@nothing_to_fill_no_request throttled_env (PixabayScript "")
              idle_sheet tt H) as (ws1 & k & evs & Hrun & Hg & _).
  by exists ws1, k, evs.
Defined.

(** X17: a completed pass over a workbook returns as many sheets, in the same
    order and under the same titles, and the run saves that workbook, once;
    a run whose pass raised saves nothing. *)
Theorem run_saves_the_same_sheets `{env : Environment} (s : script)
    (wb : list worksheet) (w : world) (out : string) :
  (∀ wb' filled skipped,
     res_of (script_pass s wb w) = Ok (wb', filled, skipped) ->
     length wb' = length wb
     ∧ ws_title <$> wb' = ws_title <$> wb
     ∧ saves (events_of (fill_workbook (script_query s) (script_find s)
                           (script_delay s) out wb w)) = [wb'])
  ∧ (∀ x,
       res_of (script_pass s wb w) = Raised x ->
       res_of (fill_workbook (script_query s) (script_find s)
                 (script_delay s) out wb w) = Raised x
       ∧ saves (events_of (fill_workbook (script_query s) (script_find s)
                             (script_delay s) out wb w)) = []).
Proof.
  unfold script_pass. split.
  - intros wb' f k Hpass.
    rewrite fill_workbook_saves, Hpass by apply script_find_no_save.
    apply sheets_loop_sheets in Hpass.
    split; [symmetry; by eapply Forall2_length |]. split; [| done].
    induction Hpass as [|ws ws' l l' (w0 & f0 & k0 & Hres) _ IH]; [done |].
    rewrite !fmap_cons, IH. f_equal.
    by apply (script_sheet_result s ws w0 ws' f0 k0) in Hres as [-> _].
  - intros x Hpass.
    rewrite fill_workbook_saves, fill_workbook_run by apply script_find_no_save.
    cbv zeta. by rewrite Hpass.
Qed.

(** ** [resolve_google_key_and_cx] *)

(** The two credentials are resolved alike, one after the other. *)
Lemma resolve_credentials_iff (c : Google.credentials) (key cx : string) :
  Google.resolve_google_key_and_cx c = Ok (key, cx)
  ↔ Google.from_prompt
      (Google.from_file
         (Google.from_args_or_env (Google.arg_key c) (Google.env_key c))
         (Google.file_key c)) (Google.typed_key c) = Ok key
    ∧ Google.from_prompt
        (Google.from_file
           (Google.from_args_or_env (Google.arg_cx c) (Google.env_cx c))
           (Google.file_cx c)) (Google.typed_cx c) = Ok cx
    ∧ PyStr.truthy key = true ∧ PyStr.truthy cx = true.
Proof.
  unfold Google.resolve_google_key_and_cx.
  destruct (Google.from_prompt _ (Google.typed_key c)) as [k|e];
    [| split; [done | by intros [? _]]].
  destruct (Google.from_prompt _ (Google.typed_cx c)) as [x|e];
    [| split; [done | by intros (_ & ? & _)]].
  destruct (PyStr.truthy k) eqn:Hk, (PyStr.truthy x) eqn:Hx; cbn;
    (split; [try done; intros [= <- <-]; by rewrite ?Hk, ?Hx
            | intros ([= <-] & [= <-] & ? & ?); congruence]).
Qed.

Lemma from_file_truthy (x : string) (file : option (list string)) :
  PyStr.truthy x = true -> Google.from_file x file = x.
Proof. unfold Google.from_file. by intros ->. Qed.

Lemma from_prompt_truthy (x : string) (p : Google.prompt) :
  PyStr.truthy x = true -> Google.from_prompt x p = Ok x.
Proof. unfold Google.from_prompt. by intros ->. Qed.


(** How one credential is chosen among its sources. *)
Lemma credential_sources (arg envv : option string) (file : option (list string))
    (p : Google.prompt) (v : string) :
  Google.from_prompt
    (Google.from_file (Google.from_args_or_env arg envv) file) p = Ok v ->
  PyStr.truthy v = true ->
  (∀ a, arg = Some a -> PyStr.truthy (PyStr.strip a) = true ->
        v = PyStr.strip a)
  ∧ (∀ e, py_or arg None = None -> envv = Some e ->
          PyStr.truthy (PyStr.strip e) = true -> v = PyStr.strip e)
  ∧ (∀ l ls, PyStr.truthy (Google.from_args_or_env arg envv) = false ->
             file = Some (l :: ls) -> PyStr.truthy (PyStr.strip l) = true ->
             v = PyStr.strip l)
  ∧ (PyStr.truthy (Google.from_file (Google.from_args_or_env arg envv) file)
       = false ->
     ∃ l, p = Google.Typed l ∧ v = PyStr.strip l).
Proof.
  intros Hv Htruthy. split; [| split; [| split]].
  - intros a -> Ha. revert Hv.
    assert (Hx : Google.from_args_or_env (Some a) envv = PyStr.strip a).
    { unfold Google.from_args_or_env, py_or.
      destruct (PyStr.truthy a) eqn:Hta; [done |]. by destruct a. }
    rewrite Hx, from_file_truthy, from_prompt_truthy by done.
    by intros [= <-].
  - intros e Harg -> He. revert Hv.
    assert (Hx : Google.from_args_or_env arg (Some e) = PyStr.strip e).
    { unfold Google.from_args_or_env. unfold py_or in *.
      destruct arg as [a|]; [| done]. by destruct (PyStr.truthy a). }
    rewrite Hx, from_file_truthy, from_prompt_truthy by done.
    by intros [= <-].
  - intros l ls Hx -> Hl. revert Hv.
    unfold Google.from_file at 1. rewrite Hx.
    rewrite from_prompt_truthy by done. by intros [= <-].
  - intros Hx. revert Hv. unfold Google.from_prompt. rewrite Hx.
    destruct p as [l| |]; [| | done].
    + intros [= <-]. by exists l.
    + intros [= <-]. congruence.
Qed.

(** X18: the order of the sources of a credential, as the script applies it:
    a command-line option whose trimmed text is not empty wins; without an
    option (or with an empty one) the environment variable does when its
    trimmed text is not empty; when that left nothing, the first line of
    the file does; when that left nothing either, the answer typed at the
    prompt is taken.  Every value is trimmed. *)
Theorem credentials_precedence (c : Google.credentials) (key cx : string) :
  Google.resolve_google_key_and_cx c = Ok (key, cx) ->
  ((∀ a, Google.arg_key c = Some a -> PyStr.truthy (PyStr.strip a) = true ->
         key = PyStr.strip a)
   ∧ (∀ e, py_or (Google.arg_key c) None = None -> Google.env_key c = Some e ->
           PyStr.truthy (PyStr.strip e) = true -> key = PyStr.strip e)
   ∧ (∀ l ls,
        PyStr.truthy (Google.from_args_or_env (Google.arg_key c)
                        (Google.env_key c)) = false ->
        Google.file_key c = Some (l :: ls) ->
        PyStr.truthy (PyStr.strip l) = true -> key = PyStr.strip l)
   ∧ (PyStr.truthy (Google.from_file
                      (Google.from_args_or_env (Google.arg_key c)
                         (Google.env_key c)) (Google.file_key c)) = false ->
      ∃ l, Google.typed_key c = Google.Typed l ∧ key = PyStr.strip l))
  ∧ ((∀ a, Google.arg_cx c = Some a -> PyStr.truthy (PyStr.strip a) = true ->
           cx = PyStr.strip a)
     ∧ (∀ e, py_or (Google.arg_cx c) None = None -> Google.env_cx c = Some e ->
             PyStr.truthy (PyStr.strip e) = true -> cx = PyStr.strip e)
     ∧ (∀ l ls,
          PyStr.truthy (Google.from_args_or_env (Google.arg_cx c)
                          (Google.env_cx c)) = false ->
          Google.file_cx c = Some (l :: ls) ->
          PyStr.truthy (PyStr.strip l) = true -> cx = PyStr.strip l)
     ∧ (PyStr.truthy (Google.from_file
                        (Google.from_args_or_env (Google.arg_cx c)
                           (Google.env_cx c)) (Google.file_cx c)) = false ->
        ∃ l, Google.typed_cx c = Google.Typed l ∧ cx = PyStr.strip l)).
Proof.
  intros (Hk & Hx & Htk & Htx)%resolve_credentials_iff.
  split; by eapply credential_sources.
Qed.

Lemma credentials_precedence_witness :
  Google.resolve_google_key_and_cx cli_credentials = Ok ("key", "cx")
  ∧ ∀ a, Google.arg_key cli_credentials = Some a ->
         PyStr.truthy (PyStr.strip a) = true -> "key" = PyStr.strip a.
Proof.
  split; [reflexivity |].
  exact (proj1 (proj1 (credentials_precedence cli_credentials "key" "cx"
                         eq_refl))).
Defined.


